(** * Knowledge-retrieval MCP server: normaliser and retrieval client

    A shallow embedding of the core of [mcp_knowledge_tools/server.py]
    (and of its network-transport twin under [build/lib]):
    [_build_headers], [_format_documents], [_format_payload] and
    [_query_dataset], together with the fragment of the Python runtime
    these functions rely on ([str], [repr], [json.dumps], [str.strip],
    truthiness), followed by the properties of the normaliser and of the
    retrieval client. *)

From Stdlib Require Import ZArith List Bool Lia String Ascii.
From Stdlib Require Import Floats.SpecFloat.
Import ListNotations.

Local Open Scope Z_scope.
Local Open Scope list_scope.

(* ================================================================== *)
(** * The Python runtime fragment *)
(* ================================================================== *)

Module Py.

(** ** Strings

    A Python [str] is a sequence of Unicode code points. *)

Definition pystr : Type := list Z.

(** [lit s] is the Python literal whose characters are those of the
    (ASCII) Rocq string [s]. *)
Definition lit (s : string) : pystr :=
  map (fun a => Z.of_N (N_of_ascii a)) (list_ascii_of_string s).

Definition LF : Z := 10.
Definition DQUOTE : Z := 34.
Definition SQUOTE : Z := 39.
Definition BACKSLASH : Z := 92.

Fixpoint str_eqb (a b : pystr) : bool :=
  match a, b with
  | [], [] => true
  | x :: a', y :: b' => (x =? y) && str_eqb a' b'
  | _, _ => false
  end.

(** [sep.join(parts)] *)
Fixpoint join (sep : pystr) (parts : list pystr) : pystr :=
  match parts with
  | [] => []
  | [p] => p
  | p :: rest => p ++ sep ++ join sep rest
  end.

(** [s * n] for a one-character string *)
Definition repeat_char (c : Z) (n : nat) : pystr := repeat c n.

(** [str.startswith] *)
Fixpoint startswith (s prefix : pystr) {struct prefix} : bool :=
  match prefix, s with
  | [], _ => true
  | p :: prefix', c :: s' => (c =? p) && startswith s' prefix'
  | _ :: _, [] => false
  end.

(** [Py_UNICODE_ISSPACE]: the code points [str.strip()] removes. *)
Definition isspace (c : Z) : bool :=
  ((9 <=? c) && (c <=? 13)) || ((28 <=? c) && (c <=? 32))
  || (c =? 133) || (c =? 160) || (c =? 5760)
  || ((8192 <=? c) && (c <=? 8202))
  || (c =? 8232) || (c =? 8233) || (c =? 8239) || (c =? 8287)
  || (c =? 12288).

Fixpoint lstrip (s : pystr) : pystr :=
  match s with
  | [] => []
  | c :: s' => if isspace c then lstrip s' else s
  end.

Definition rstrip (s : pystr) : pystr := rev (lstrip (rev s)).

(** [s.strip()] *)
Definition strip (s : pystr) : pystr := rstrip (lstrip s).

(** ** Integers: [int.__repr__] *)

Definition digit_char (d : Z) : Z := 48 + d.

Fixpoint pos_digits (fuel : nat) (n : Z) (acc : pystr) : pystr :=
  match fuel with
  | O => acc
  | S fuel' =>
      if n <? 10 then digit_char n :: acc
      else pos_digits fuel' (n / 10) (digit_char (n mod 10) :: acc)
  end.

(** Decimal digits of a non-negative integer; the fuel is the bit length,
    which bounds the number of decimal digits. *)
Definition nat_repr (n : Z) : pystr :=
  pos_digits (S (Z.to_nat (Z.log2 n))) n [].

Definition int_repr (n : Z) : pystr :=
  if n <? 0 then 45 :: nat_repr (- n) else nat_repr n.

(** Lower-case hexadecimal, zero-padded to [width] digits
    (the [%02x], [%04x], [%08x] conversions). *)
Definition hex_char (d : Z) : Z := if d <? 10 then 48 + d else 87 + d.

Fixpoint hex_fixed (width : nat) (n : Z) : pystr :=
  match width with
  | O => []
  | S w => hex_fixed w (n / 16) ++ [hex_char (n mod 16)]
  end.

(** ** Floats: [float.__repr__]

    A Python [float] is an IEEE 754 binary64 number, kept here as the
    standard library's [spec_float]: a signed zero, a signed infinity,
    NaN, or [(-1)^s * m * 2^e] with [m < 2^53], [-1074 <= e], and
    [e = -1074] whenever [m < 2^52].

    [repr] prints the shortest decimal digit string that reads back as
    the same double (the digit string nearest to the exact value when
    there is a choice), laid out in positional notation when the decimal
    exponent lies in [-4 < decpt <= 16], in exponent notation otherwise. *)

Definition pyfloat : Type := spec_float.

Section FloatDigits.

(** The magnitude [m * 2^e]. *)
Variables (m e : Z).

(** [m] sits at the bottom of its binade: the gap to the next lower
    double is half the gap to the next higher one. *)
Definition at_binade_floor : bool := (m =? 2 ^ 52) && (-1074 <? e).

(** The value is [fnum / fden]; the rounding interval around it is
    [(fnum - fdown) / fden, (fnum + fup) / fden], closed when [m] is
    even (ties read back to the even mantissa) and open otherwise. *)
Definition fnum : Z := if 0 <=? e then 4 * m * 2 ^ e else 4 * m.
Definition fden : Z := if 0 <=? e then 4 else 4 * 2 ^ (- e).
Definition fup : Z := if 0 <=? e then 2 * 2 ^ e else 2.
Definition fdown : Z :=
  if at_binade_floor then fup / 2 else fup.

(** [below_pow10 k]: is the value below [10^k]? *)
Definition below_pow10 (k : Z) : bool :=
  if 0 <=? k then fnum <? fden * 10 ^ k
  else fnum * 10 ^ (- k) <? fden.

(** The position of the decimal point: the least [k] with
    [value < 10^k].  The search runs upwards from an underestimate
    obtained from the binary exponent ([log10 2] is just below
    [0.30103], and the value is at least [2 ^ (log2 m + e)]). *)
Fixpoint find_decpt (fuel : nat) (k : Z) : Z :=
  match fuel with
  | O => k
  | S fuel' => if below_pow10 k then k else find_decpt fuel' (k + 1)
  end.

Definition decpt0 : Z :=
  find_decpt 8 ((Z.log2 m + e) * 30103 / 100000 - 1).

(** The [n]-digit candidates are the value cut after [n] digits and
    that number plus one unit in the last place.  [shortest_at n] is
    the candidate that reads back as the same double, if there is one. *)
Definition shortest_at (n : Z) : option Z :=
  let p := n - decpt0 in
  let sc := if 0 <=? p then 10 ^ p else 1 in
  let sd := if 0 <=? p then 1 else 10 ^ (- p) in
  let A := fnum * sc in
  let B := fden * sd in
  let U := fup * sc in
  let D := fdown * sc in
  let fl := A / B in
  let rem := A mod B in
  let low_ok := if Z.even m then rem <=? D else rem <? D in
  let high_ok := if Z.even m then B - rem <=? U else B - rem <? U in
  if rem =? 0 then Some fl
  else if low_ok && high_ok then
    if 2 * rem <? B then Some fl
    else if B <? 2 * rem then Some (fl + 1)
    else if Z.even fl then Some fl else Some (fl + 1)
  else if low_ok then Some fl
  else if high_ok then Some (fl + 1)
  else None.

(** The value rounded to [n] digits, ties to the even digit. *)
Definition nearest_at (n : Z) : Z :=
  let p := n - decpt0 in
  let A := fnum * (if 0 <=? p then 10 ^ p else 1) in
  let B := fden * (if 0 <=? p then 1 else 10 ^ (- p)) in
  let fl := A / B in
  let rem := A mod B in
  if 2 * rem <? B then fl
  else if B <? 2 * rem then fl + 1
  else if Z.even fl then fl else fl + 1.

(** Digit counts are tried in increasing order; seventeen significant
    digits always identify a double, so the search stops there. *)
Fixpoint shortest_from (fuel : nat) (n : Z) : Z * Z :=
  match fuel with
  | O => (nearest_at n, n)
  | S fuel' =>
      match shortest_at n with
      | Some c => (c, n)
      | None => shortest_from fuel' (n + 1)
      end
  end.

Fixpoint drop_trailing_zeros_rev (r : pystr) : pystr :=
  match r with
  | c :: r' => if c =? 48 then drop_trailing_zeros_rev r' else r
  | [] => []
  end.

(** Significant digits (no trailing zero) and decimal-point position:
    the value printed is [0.d1 d2 ... dn * 10^decpt]. *)
Definition shortest_digits : pystr * Z :=
  let '(c, n) := shortest_from 16 1 in
  let ds := nat_repr c in
  (rev (drop_trailing_zeros_rev (rev ds)),
   decpt0 + (Z.of_nat (List.length ds) - n)).

Definition exponent_repr (x : Z) : pystr :=
  let a := Z.abs x in
  (if x <? 0 then 45 else 43)
    :: (if a <? 10 then 48 :: nat_repr a else nat_repr a).

Definition finite_repr : pystr :=
  let '(ds, decpt) := shortest_digits in
  let nd := Z.of_nat (List.length ds) in
  if (decpt <=? -4) || (16 <? decpt) then
    match ds with
    | d :: [] => d :: 101 :: exponent_repr (decpt - 1)
    | d :: rest => d :: 46 :: rest ++ 101 :: exponent_repr (decpt - 1)
    | [] => []
    end
  else if decpt <=? 0 then
    48 :: 46 :: repeat 48 (Z.to_nat (- decpt)) ++ ds
  else if nd <=? decpt then
    ds ++ repeat 48 (Z.to_nat (decpt - nd)) ++ [46; 48]
  else
    firstn (Z.to_nat decpt) ds ++ 46 :: skipn (Z.to_nat decpt) ds.

End FloatDigits.

Definition float_repr (x : pyfloat) : pystr :=
  match x with
  | S754_zero s => if s then lit "-0.0" else lit "0.0"
  | S754_infinity s => if s then lit "-inf" else lit "inf"
  | S754_nan => lit "nan"
  | S754_finite s m e =>
      (if s then [45] else []) ++ finite_repr (Zpos m) e
  end.

(** ** Values

    The objects [json.loads] produces: [None], [bool], [int], [float],
    [str], [list] and [dict].  A [dict] keeps its entries in insertion
    order, which [repr] and [json.dumps] follow, so it is kept as an
    association list; the keys of a decoded JSON object are distinct
    strings. *)

#[local] Set Warnings "-register-all".

Inductive value : Type :=
| PyNone
| PyBool (b : bool)
| PyInt (n : Z)
| PyFloat (x : pyfloat)
| PyStr (s : pystr)
| PyList (l : list value)
| PyDict (d : list (pystr * value)).

Definition pydict : Type := list (pystr * value).

Fixpoint dict_lookup (d : pydict) (key : pystr) : option value :=
  match d with
  | [] => None
  | (k, v) :: d' => if str_eqb k key then Some v else dict_lookup d' key
  end.

(** [d.get(key)]: the value stored under [key], [None] when absent. *)
Definition dict_get (d : pydict) (key : pystr) : value :=
  match dict_lookup d key with
  | Some v => v
  | None => PyNone
  end.

(** [key in d] *)
Definition dict_contains (d : pydict) (key : pystr) : bool :=
  match dict_lookup d key with
  | Some _ => true
  | None => false
  end.

(** Truth value testing. *)
Definition truthy (v : value) : bool :=
  match v with
  | PyNone => false
  | PyBool b => b
  | PyInt n => negb (n =? 0)
  | PyFloat (S754_zero _) => false
  | PyFloat _ => true
  | PyStr s => match s with [] => false | _ => true end
  | PyList l => match l with [] => false | _ => true end
  | PyDict d => match d with [] => false | _ => true end
  end.

(** [a or b] *)
Definition py_or (a b : value) : value := if truthy a then a else b.

(** [v is not None] *)
Definition is_not_none (v : value) : bool :=
  match v with
  | PyNone => false
  | _ => true
  end.

(** [isinstance(v, list)] *)
Definition is_list (v : value) : bool :=
  match v with
  | PyList _ => true
  | _ => false
  end.

(** ** [repr] and [str] *)

Section Repr.

(** [str.isprintable] on a single code point, as the Unicode character
    database of the interpreter decides it; only consulted above
    U+007F. *)
Variable isprintable : Z -> bool.

Definition contains (c : Z) (s : pystr) : bool := existsb (Z.eqb c) s.

(** Single quotes, unless the string has a single quote and no double
    quote. *)
Definition repr_quote (s : pystr) : Z :=
  if contains SQUOTE s && negb (contains DQUOTE s) then DQUOTE else SQUOTE.

Definition repr_char (quote c : Z) : pystr :=
  if (c =? quote) || (c =? BACKSLASH) then [BACKSLASH; c]
  else if c =? 9 then lit "\t"
  else if c =? 10 then lit "\n"
  else if c =? 13 then lit "\r"
  else if (c <? 32) || (c =? 127) then lit "\x" ++ hex_fixed 2 c
  else if c <? 127 then [c]
  else if isprintable c then [c]
  else if c <=? 255 then lit "\x" ++ hex_fixed 2 c
  else if c <=? 65535 then lit "\u" ++ hex_fixed 4 c
  else lit "\U" ++ hex_fixed 8 c.

Definition str_repr (s : pystr) : pystr :=
  let quote := repr_quote s in
  quote :: flat_map (repr_char quote) s ++ [quote].

Fixpoint py_repr (v : value) : pystr :=
  match v with
  | PyNone => lit "None"
  | PyBool b => if b then lit "True" else lit "False"
  | PyInt n => int_repr n
  | PyFloat x => float_repr x
  | PyStr s => str_repr s
  | PyList l => lit "[" ++ join (lit ", ") (map py_repr l) ++ lit "]"
  | PyDict d =>
      lit "{"
      ++ join (lit ", ")
           (map (fun kv => str_repr (fst kv) ++ lit ": " ++ py_repr (snd kv)) d)
      ++ lit "}"
  end.

(** [str(v)], which is also what a bare [{v}] field of an f-string
    inserts. *)
Definition py_str (v : value) : pystr :=
  match v with
  | PyStr s => s
  | _ => py_repr v
  end.

End Repr.

(** ** [json.dumps(v, ensure_ascii=False, indent=indent)] *)

Definition json_escape_char (c : Z) : pystr :=
  if c =? BACKSLASH then lit "\\"
  else if c =? DQUOTE then [BACKSLASH; DQUOTE]
  else if c =? 8 then lit "\b"
  else if c =? 12 then lit "\f"
  else if c =? 10 then lit "\n"
  else if c =? 13 then lit "\r"
  else if c =? 9 then lit "\t"
  else if c <? 32 then lit "\u" ++ hex_fixed 4 c
  else [c].

Definition encode_basestring (s : pystr) : pystr :=
  DQUOTE :: flat_map json_escape_char s ++ [DQUOTE].

Definition floatstr (x : pyfloat) : pystr :=
  match x with
  | S754_nan => lit "NaN"
  | S754_infinity false => lit "Infinity"
  | S754_infinity true => lit "-Infinity"
  | _ => float_repr x
  end.

Section Dumps.

(** [None] for the compact layout, [Some n] for [indent=n]. *)
Variable indent : option nat.

Definition item_separator : pystr :=
  match indent with
  | None => lit ", "
  | Some _ => lit ","
  end.

Definition key_separator : pystr := lit ": ".

Definition newline_indent (level : nat) : pystr :=
  match indent with
  | None => []
  | Some n => LF :: repeat 32 (n * level)
  end.

Fixpoint iterencode (level : nat) (v : value) : pystr :=
  match v with
  | PyNone => lit "null"
  | PyBool b => if b then lit "true" else lit "false"
  | PyInt n => int_repr n
  | PyFloat x => floatstr x
  | PyStr s => encode_basestring s
  | PyList l =>
      match l with
      | [] => lit "[]"
      | _ =>
          lit "[" ++ newline_indent (S level)
          ++ join (item_separator ++ newline_indent (S level))
               (map (iterencode (S level)) l)
          ++ newline_indent level ++ lit "]"
      end
  | PyDict d =>
      match d with
      | [] => lit "{}"
      | _ =>
          lit "{" ++ newline_indent (S level)
          ++ join (item_separator ++ newline_indent (S level))
               (map (fun kv =>
                       encode_basestring (fst kv) ++ key_separator
                       ++ iterencode (S level) (snd kv)) d)
          ++ newline_indent level ++ lit "}"
      end
  end.

End Dumps.

Definition json_dumps (indent : option nat) (v : value) : pystr :=
  iterencode indent 0 v.

End Py.

Import Py.

(* ================================================================== *)
(** * The world outside the process *)
(* ================================================================== *)

(** The retrieval client reads the process environment and talks to the
    retrieval service through [httpx].  Both are kept in an explicit
    [World]; a computation either raises or returns, and leaves a new
    world behind. *)

Module IO.

Record Request : Type := {
  url : pystr;
  headers : list (pystr * pystr);
  json : value;
  timeout : Z
}.

(** An HTTP response as the client sees it: its status code and what
    [response.json()] gives, [None] when the body is not valid JSON. *)
Record Response : Type := {
  status_code : Z;
  decoded : option value
}.

Inductive exn : Type :=
| RuntimeError (msg : pystr)
| ValueError (msg : pystr)
| AttributeError
| HTTPStatusError (response : Response)
| TransportError
| JSONDecodeError.

Record World : Type := {
  (** [os.environ] *)
  environ : list (pystr * pystr);
  (** the network and the service behind it: the outcome of a request,
      given the requests already sent *)
  upstream : list Request -> Request -> exn + Response;
  (** every request issued so far, oldest first *)
  sent : list Request
}.

Definition IO (A : Type) : Type := World -> (exn + A) * World.

Definition ret {A : Type} (a : A) : IO A := fun w => (inr a, w).

Definition raise {A : Type} (e : exn) : IO A := fun w => (inl e, w).

Definition bind {A B : Type} (c : IO A) (k : A -> IO B) : IO B :=
  fun w =>
    match c w with
    | (inl e, w') => (inl e, w')
    | (inr a, w') => k a w'
    end.

Fixpoint env_lookup (env : list (pystr * pystr)) (name : pystr) : option pystr :=
  match env with
  | [] => None
  | (k, v) :: env' => if str_eqb k name then Some v else env_lookup env' name
  end.

(** [os.getenv(name, default)] *)
Definition os_getenv (name default : pystr) : IO pystr :=
  fun w =>
    match env_lookup (environ w) name with
    | Some v => (inr v, w)
    | None => (inr default, w)
    end.

(** [await client.post(url, headers=headers, json=json)] on a client
    built with [timeout] seconds: the request goes out, and the call
    either raises a transport fault or returns the response. *)
Definition client_post (timeout : Z) (url : pystr)
    (headers : list (pystr * pystr)) (json : value) : IO Response :=
  fun w =>
    let request :=
      {| url := url; headers := headers; json := json; timeout := timeout |} in
    let w' :=
      {| environ := environ w; upstream := upstream w;
         sent := sent w ++ [request] |} in
    match upstream w (sent w) request with
    | inl e => (inl e, w')
    | inr response => (inr response, w')
    end.

(** [Response.is_success] *)
Definition is_success (response : Response) : bool :=
  (200 <=? status_code response) && (status_code response <=? 299).

(** [response.raise_for_status()] *)
Definition raise_for_status (response : Response) : IO unit :=
  if is_success response then ret tt else raise (HTTPStatusError response).

(** [response.json()] *)
Definition response_json (response : Response) : IO value :=
  match decoded response with
  | Some v => ret v
  | None => raise JSONDecodeError
  end.

End IO.

Import IO.

Notation "x <- c ;; k" := (bind c (fun x => k))
  (at level 61, c at next level, right associativity).

(* ================================================================== *)
(** * [mcp_knowledge_tools/server.py]: the pipe-transport server *)
(* ================================================================== *)

Module Server.

Definition _DATASET_TOKEN_ENV : pystr := lit "DIFY_DATASET_TOKEN".
Definition _DEFAULT_DATASET_TOKEN : pystr := lit "dataset-gCRaKZgnKtvqLdeuoCFjKiME".

(** [_DATASET_URL_TEMPLATE.format(data_id=data_id)] *)
Definition _DATASET_URL_TEMPLATE (data_id : pystr) : pystr :=
  lit "https://api.dify.ai/v1/datasets/" ++ data_id ++ lit "/retrieve".

Definition _UX_DATASET_ID : pystr := lit "cab02597-6315-456c-92d3-19a65e3e7efd".
Definition _LEAN_DATASET_ID : pystr := lit "67659dbe-4387-4122-8eb9-1d2005bea6a2".
Definition _AUTOMATION_DATASET_ID : pystr := lit "b68de37f-a9f7-41fc-948f-eb89ca145770".

Definition _build_headers : IO (list (pystr * pystr)) :=
  token <- os_getenv _DATASET_TOKEN_ENV _DEFAULT_DATASET_TOKEN ;;
  if negb (truthy (PyStr token)) then
    raise (RuntimeError (lit
      "A dataset token is required. Set the DIFY_DATASET_TOKEN environment variable."))
  else
    ret [ (lit "Authorization", lit "Bearer " ++ token);
          (lit "Content-Type", lit "application/json") ].

Section Core.

Variable isprintable : Z -> bool.

(** The lines of the block of a [dict] item. *)
Definition section_lines (index : Z) (item : pydict) : list pystr :=
  let content :=
    py_or (py_or (dict_get item (lit "content")) (dict_get item (lit "answer")))
          (dict_get item (lit "text")) in
  let metadata := py_or (dict_get item (lit "metadata")) (PyDict []) in
  let score := dict_get item (lit "score") in
  let section_lines :=
    [ if truthy content then int_repr index ++ lit ". " ++ py_str isprintable content
      else int_repr index ++ lit ". (no content)" ] in
  let section_lines :=
    if is_not_none score
    then section_lines ++ [lit "   score: " ++ py_str isprintable score]
    else section_lines in
  let section_lines :=
    if truthy metadata
    then section_lines ++ [lit "   metadata: " ++ json_dumps None metadata]
    else section_lines in
  section_lines.

(** The body of the [for index, item in enumerate(items, start=1)]
    loop: [parts] after the items from [index] on have been appended. *)
Fixpoint _format_documents_loop (index : Z) (items : list value)
    (parts : list pystr) : list pystr :=
  match items with
  | [] => parts
  | item :: items' =>
      let parts :=
        match item with
        | PyDict d => parts ++ [join [LF] (section_lines index d)]
        | _ => parts ++ [int_repr index ++ lit ". " ++ py_str isprintable item]
        end in
      _format_documents_loop (index + 1) items' parts
  end.

Definition _format_documents (items : list value) : pystr :=
  join [LF; LF] (_format_documents_loop 1 items []).

(** The [for key in ("items", "data", "documents", "results")] loop,
    from the keys still to visit. *)
Fixpoint _format_payload_loop (keys : list pystr) (payload : pydict) : pystr :=
  match keys with
  | [] => json_dumps (Some 2%nat) (PyDict payload)
  | key :: keys' =>
      let items := dict_get payload key in
      match items with
      | PyList l =>
          if negb (truthy items) then lit "No matching documents were found."
          else
            let formatted := _format_documents l in
            if truthy (PyStr (strip formatted)) then formatted
            else _format_payload_loop keys' payload
      | _ => _format_payload_loop keys' payload
      end
  end.

Definition _format_payload (payload : pydict) : pystr :=
  _format_payload_loop
    [lit "items"; lit "data"; lit "documents"; lit "results"] payload.

Definition _query_dataset (query data_id : pystr) : IO pystr :=
  if negb (truthy (PyStr query)) || negb (truthy (PyStr (strip query))) then
    raise (ValueError (lit "Query text must not be empty."))
  else
    let url := _DATASET_URL_TEMPLATE data_id in
    headers <- _build_headers ;;
    response <- client_post 30 url headers (PyDict [(lit "query", PyStr query)]) ;;
    _ <- raise_for_status response ;;
    payload <- response_json response ;;
    match payload with
    | PyDict d => ret (_format_payload d)
    | _ => raise AttributeError
    end.

Definition query_ux_knowledge (query : pystr) : IO pystr :=
  _query_dataset query _UX_DATASET_ID.

Definition query_lean_knowledge (query : pystr) : IO pystr :=
  _query_dataset query _LEAN_DATASET_ID.

Definition query_automation_step (query : pystr) : IO pystr :=
  _query_dataset query _AUTOMATION_DATASET_ID.

End Core.

End Server.

(* ================================================================== *)
(** * [build/lib/mcp_knowledge_tools/server.py]: the HTTP/SSE server *)
(* ================================================================== *)

(** The core of this file is embedded on its own, from its own text.  Its
    [build_app] and [main] mount the tools on Starlette and uvicorn and
    take no part in what a tool call computes. *)

Module BuildLibServer.

Definition _DATASET_TOKEN_ENV : pystr := lit "DIFY_DATASET_TOKEN".
Definition _DEFAULT_DATASET_TOKEN : pystr := lit "dataset-gCRaKZgnKtvqLdeuoCFjKiME".

(** [_DATASET_URL_TEMPLATE.format(data_id=data_id)] *)
Definition _DATASET_URL_TEMPLATE (data_id : pystr) : pystr :=
  lit "https://api.dify.ai/v1/datasets/" ++ data_id ++ lit "/retrieve".

Definition _UX_DATASET_ID : pystr := lit "cab02597-6315-456c-92d3-19a65e3e7efd".
Definition _LEAN_DATASET_ID : pystr := lit "67659dbe-4387-4122-8eb9-1d2005bea6a2".
Definition _AUTOMATION_DATASET_ID : pystr := lit "b68de37f-a9f7-41fc-948f-eb89ca145770".

Definition _build_headers : IO (list (pystr * pystr)) :=
  token <- os_getenv _DATASET_TOKEN_ENV _DEFAULT_DATASET_TOKEN ;;
  if negb (truthy (PyStr token)) then
    raise (RuntimeError (lit
      "A dataset token is required. Set the DIFY_DATASET_TOKEN environment variable."))
  else
    ret [ (lit "Authorization", lit "Bearer " ++ token);
          (lit "Content-Type", lit "application/json") ].

Section Core.

Variable isprintable : Z -> bool.

(** The lines of the block of a [dict] item. *)
Definition section_lines (index : Z) (item : pydict) : list pystr :=
  let content :=
    py_or (py_or (dict_get item (lit "content")) (dict_get item (lit "answer")))
          (dict_get item (lit "text")) in
  let metadata := py_or (dict_get item (lit "metadata")) (PyDict []) in
  let score := dict_get item (lit "score") in
  let section_lines :=
    [ if truthy content then int_repr index ++ lit ". " ++ py_str isprintable content
      else int_repr index ++ lit ". (no content)" ] in
  let section_lines :=
    if is_not_none score
    then section_lines ++ [lit "   score: " ++ py_str isprintable score]
    else section_lines in
  let section_lines :=
    if truthy metadata
    then section_lines ++ [lit "   metadata: " ++ json_dumps None metadata]
    else section_lines in
  section_lines.

(** The body of the [for index, item in enumerate(items, start=1)]
    loop: [parts] after the items from [index] on have been appended. *)
Fixpoint _format_documents_loop (index : Z) (items : list value)
    (parts : list pystr) : list pystr :=
  match items with
  | [] => parts
  | item :: items' =>
      let parts :=
        match item with
        | PyDict d => parts ++ [join [LF] (section_lines index d)]
        | _ => parts ++ [int_repr index ++ lit ". " ++ py_str isprintable item]
        end in
      _format_documents_loop (index + 1) items' parts
  end.

Definition _format_documents (items : list value) : pystr :=
  join [LF; LF] (_format_documents_loop 1 items []).

(** The [for key in ("items", "data", "documents", "results")] loop,
    from the keys still to visit. *)
Fixpoint _format_payload_loop (keys : list pystr) (payload : pydict) : pystr :=
  match keys with
  | [] => json_dumps (Some 2%nat) (PyDict payload)
  | key :: keys' =>
      let items := dict_get payload key in
      match items with
      | PyList l =>
          if negb (truthy items) then lit "No matching documents were found."
          else
            let formatted := _format_documents l in
            if truthy (PyStr (strip formatted)) then formatted
            else _format_payload_loop keys' payload
      | _ => _format_payload_loop keys' payload
      end
  end.

Definition _format_payload (payload : pydict) : pystr :=
  _format_payload_loop
    [lit "items"; lit "data"; lit "documents"; lit "results"] payload.

Definition _query_dataset (query data_id : pystr) : IO pystr :=
  if negb (truthy (PyStr query)) || negb (truthy (PyStr (strip query))) then
    raise (ValueError (lit "Query text must not be empty."))
  else
    let url := _DATASET_URL_TEMPLATE data_id in
    headers <- _build_headers ;;
    response <- client_post 30 url headers (PyDict [(lit "query", PyStr query)]) ;;
    _ <- raise_for_status response ;;
    payload <- response_json response ;;
    match payload with
    | PyDict d => ret (_format_payload d)
    | _ => raise AttributeError
    end.

Definition query_ux_knowledge (query : pystr) : IO pystr :=
  _query_dataset query _UX_DATASET_ID.

Definition query_lean_knowledge (query : pystr) : IO pystr :=
  _query_dataset query _LEAN_DATASET_ID.

Definition query_automation_step (query : pystr) : IO pystr :=
  _query_dataset query _AUTOMATION_DATASET_ID.

End Core.

End BuildLibServer.

(* ================================================================== *)
(** * Vocabulary of the properties *)
(* ================================================================== *)

(** The fields the normaliser inspects, in priority order. *)
Definition PRIORITY : list pystr :=
  [lit "items"; lit "data"; lit "documents"; lit "results"].

Definition NO_MATCH : pystr := lit "No matching documents were found.".

Definition EMPTY_QUERY : pystr := lit "Query text must not be empty.".

(** The field [key] of [payload] is absent or does not hold a sequence. *)
Definition not_a_list (payload : pydict) (key : pystr) : Prop :=
  is_list (dict_get payload key) = false.

(** A string with nothing but whitespace in it, the empty one included. *)
Definition blank (s : pystr) : bool := forallb isspace s.

(** A section line that reports a score. *)
Definition has_score_line (lines : list pystr) : bool :=
  existsb (fun line => startswith line (lit "   score: ")) lines.

(** A JSON string token, as it appears inside serialised output. *)
Definition quoted (s : pystr) : pystr := DQUOTE :: s ++ [DQUOTE].

Section Vocabulary.

Variable isprintable : Z -> bool.

(** What the normaliser makes of the result list it selected. *)
Definition render_selected (items : list value) : pystr :=
  match items with
  | [] => NO_MATCH
  | _ => Server._format_documents isprintable items
  end.

(** The numbered block of one element of the result list. *)
Definition block (index : Z) (item : value) : pystr :=
  match item with
  | PyDict d => join [LF] (Server.section_lines isprintable index d)
  | _ => int_repr index ++ lit ". " ++ py_str isprintable item
  end.

(** The blocks of a result list whose first element has number [index]. *)
Fixpoint blocks_from (index : Z) (items : list value) : list pystr :=
  match items with
  | [] => []
  | item :: items' => block index item :: blocks_from (index + 1) items'
  end.

(** The statement that a score line is reported exactly when the item has
    a [score] field. *)
Definition score_line_iff_field (index : Z) (item : pydict) : Prop :=
  has_score_line (Server.section_lines isprintable index item) = true
  <-> dict_contains item (lit "score") = true.

(** The request the client sends for [query] against [data_id] with
    the headers [hdrs]. *)
Definition request_for (hdrs : list (pystr * pystr)) (query data_id : pystr)
    : Request :=
  {| url := Server._DATASET_URL_TEMPLATE data_id;
     headers := hdrs;
     json := PyDict [(lit "query", PyStr query)];
     timeout := 30 |}.

End Vocabulary.

(** The world after one more request. *)
Definition after_request (w : World) (request : Request) : World :=
  {| environ := environ w; upstream := upstream w;
     sent := sent w ++ [request] |}.

(** ** Sample data *)

(** A printable-character table that knows ASCII only. *)
Definition ascii_printable (c : Z) : bool := (32 <=? c) && (c <? 127).

(** The double nearest to [0.9]: [0x3FECCCCCCCCCCCCD]. *)
Definition double_0_9 : pyfloat := S754_finite false 8106479329266893 (-53).

(** [{"results": [{"content": "Use 5S", "score": 0.9,
                   "metadata": {"tag": "lean"}}]}] *)
Definition payload_5s : pydict :=
  [ (lit "results",
     PyList [ PyDict [ (lit "content", PyStr (lit "Use 5S"));
                       (lit "score", PyFloat double_0_9);
                       (lit "metadata", PyDict [(lit "tag", PyStr (lit "lean"))]) ] ]) ].

(** [{"status": "ok"}] *)
Definition payload_status : pydict := [(lit "status", PyStr (lit "ok"))].

(** [{"items": "n/a", "data": ["a"], "results": []}] *)
Definition payload_mixed : pydict :=
  [ (lit "items", PyStr (lit "n/a"));
    (lit "data", PyList [PyStr (lit "a")]);
    (lit "results", PyList []) ].

(** [{"items": "n/a", "data": ["a"], "results": ["x", "y"], "extra": 1}] *)
Definition payload_mixed_variant : pydict :=
  [ (lit "items", PyStr (lit "n/a"));
    (lit "data", PyList [PyStr (lit "a")]);
    (lit "results", PyList [PyStr (lit "x"); PyStr (lit "y")]);
    (lit "extra", PyInt 1) ].

(** [{"data": [], "results": ["a", "b"]}] *)
Definition payload_empty_first : pydict :=
  [ (lit "data", PyList []);
    (lit "results", PyList [PyStr (lit "a"); PyStr (lit "b")]) ].

(** [{"documents": [{"text": "t", "score": 7}, null, ["q", 3]]}] *)
Definition payload_three : pydict :=
  [ (lit "documents",
     PyList [ PyDict [(lit "text", PyStr (lit "t")); (lit "score", PyInt 7)];
              PyNone;
              PyList [PyStr (lit "q"); PyInt 3] ]) ].

(** [{"score": null}] *)
Definition item_null_score : pydict := [(lit "score", PyNone)].

(** [{"content": "c", "score": false}] *)
Definition item_false_score : pydict :=
  [(lit "content", PyStr (lit "c")); (lit "score", PyBool false)].

(** A service that answers every request with status 500 and a body
    that would normalise happily. *)
Definition response_500 : Response :=
  {| status_code := 500; decoded := Some (PyDict payload_5s) |}.

Definition world_500 : World :=
  {| environ := []; upstream := fun _ _ => inr response_500; sent := [] |}.

(** ** Further vocabulary *)

(** A section line that reports metadata. *)
Definition has_metadata_line (lines : list pystr) : bool :=
  existsb (fun line => startswith line (lit "   metadata: ")) lines.

(** The header pair built around a token. *)
Definition headers_for (token : pystr) : list (pystr * pystr) :=
  [ (lit "Authorization", lit "Bearer " ++ token);
    (lit "Content-Type", lit "application/json") ].

Definition TOKEN_REQUIRED : pystr :=
  lit "A dataset token is required. Set the DIFY_DATASET_TOKEN environment variable.".

(** [isinstance(v, dict)] *)
Definition is_dict (v : value) : bool :=
  match v with
  | PyDict _ => true
  | _ => false
  end.

(** A fresh world with the environment [env] whose service gives every
    request the same [outcome]. *)
Definition world_answering (env : list (pystr * pystr))
    (outcome : exn + Response) : World :=
  {| environ := env; upstream := fun _ _ => outcome; sent := [] |}.

(** [{"content": "", "answer": "A", "text": "T"}] *)
Definition item_empty_content : pydict :=
  [ (lit "content", PyStr []);
    (lit "answer", PyStr (lit "A"));
    (lit "text", PyStr (lit "T")) ].

(** [{"content": 0, "metadata": "m"}] *)
Definition item_string_metadata : pydict :=
  [ (lit "content", PyInt 0); (lit "metadata", PyStr (lit "m")) ].

(** A 200 response carrying [{"data": []}]. *)
Definition response_200_empty : Response :=
  {| status_code := 200; decoded := Some (PyDict [(lit "data", PyList [])]) |}.

(** A 200 response whose body is the JSON array [["a"]]. *)
Definition response_200_array : Response :=
  {| status_code := 200; decoded := Some (PyList [PyStr (lit "a")]) |}.

(** A 200 response whose body is not JSON. *)
Definition response_200_garbage : Response :=
  {| status_code := 200; decoded := None |}.

(* ================================================================== *)
(** * Properties *)
(* ================================================================== *)

(** ** The runtime fragment on sample inputs *)

(** [double_0_9] is within half a unit in the last place of [9/10]. *)
Fact double_0_9_nearest :
  2 * Z.abs (10 * 8106479329266893 - 9 * 2 ^ 53) <= 10.
Proof. vm_compute. discriminate. Qed.

Example float_repr_samples :
  float_repr double_0_9 = lit "0.9"
  /\ float_repr (S754_finite false 4503599627370496 1) = lit "9007199254740992.0"
  /\ float_repr (S754_finite false 5000000000000000 1) = lit "1e+16"
  /\ float_repr (S754_finite true 6755399441055744 (-52)) = lit "-1.5"
  /\ float_repr (S754_finite false 1 (-1074)) = lit "5e-324"
  /\ float_repr (S754_zero true) = lit "-0.0".
Proof. vm_compute. repeat split. Qed.

Example strip_samples :
  strip (lit "  5S ") = lit "5S"
  /\ strip [12288; 9; 10] = []
  /\ strip (lit "1. ") = lit "1.".
Proof. vm_compute. repeat split. Qed.

Example str_samples :
  py_str ascii_printable (PyList [PyStr (lit "q"); PyInt (-3); PyNone; PyBool true])
  = lit "['q', -3, None, True]"
  /\ py_str ascii_printable (PyStr (lit "q")) = lit "q"
  /\ py_str ascii_printable (PyList [PyStr [7; SQUOTE]])
     = lit "[" ++ quoted (lit "\x07'") ++ lit "]".
Proof. vm_compute. repeat split. Qed.

Example json_dumps_samples :
  json_dumps None (PyDict [(lit "tag", PyStr (lit "lean")); (lit "n", PyList [PyInt 1; PyNone])])
  = lit "{" ++ quoted (lit "tag") ++ lit ": " ++ quoted (lit "lean") ++ lit ", "
    ++ quoted (lit "n") ++ lit ": [1, null]}"
  /\ json_dumps (Some 2%nat) (PyList [PyBool true; PyList []])
     = join [LF] [lit "["; lit "  true,"; lit "  []"; lit "]"].
Proof. vm_compute. repeat split. Qed.

(** ** Strings *)

Lemma startswith_app (p s : pystr) : startswith (p ++ s) p = true.
Proof.
  induction p as [|c p IH]; simpl.
  - reflexivity.
  - now rewrite Z.eqb_refl, IH.
Qed.

Lemma startswith_app_l (p a s : pystr) :
  startswith a p = true -> startswith (a ++ s) p = true.
Proof.
  revert a. induction p as [|c p IH]; intros a H; simpl in *.
  - reflexivity.
  - destruct a as [|x a]; [discriminate|]. simpl.
    apply andb_true_iff in H as [-> H]. simpl. now apply IH.
Qed.

Lemma join_cons (sep p : pystr) (rest : list pystr) :
  exists tail, join sep (p :: rest) = p ++ tail.
Proof.
  destruct rest as [|q rest]; simpl.
  - exists []. now rewrite app_nil_r.
  - now exists (sep ++ join sep (q :: rest)).
Qed.

Lemma lstrip_blank (s : pystr) : blank s = true -> lstrip s = [].
Proof.
  unfold blank. induction s as [|c s IH]; simpl; intros H.
  - reflexivity.
  - apply andb_true_iff in H as [-> H]. now apply IH.
Qed.

Lemma lstrip_nil_blank (s : pystr) : lstrip s = [] -> blank s = true.
Proof.
  unfold blank. induction s as [|c s IH]; simpl; intros H.
  - reflexivity.
  - destruct (isspace c); [now apply IH | discriminate].
Qed.

Lemma lstrip_last_nonspace (s : pystr) (c : Z) :
  isspace c = false -> lstrip (s ++ [c]) <> [].
Proof.
  intros Hc. induction s as [|x s IH]; simpl.
  - now rewrite Hc.
  - destruct (isspace x); [exact IH | discriminate].
Qed.

Lemma strip_blank (s : pystr) : blank s = true -> strip s = [].
Proof.
  intros H. unfold strip. now rewrite (lstrip_blank s H).
Qed.

Lemma strip_head_nonspace (c : Z) (s : pystr) :
  isspace c = false -> strip (c :: s) <> [].
Proof.
  intros Hc. unfold strip, rstrip. simpl lstrip at 2. rewrite Hc.
  simpl rev at 2. intros E.
  apply (f_equal (@List.length Z)) in E. rewrite length_rev in E.
  apply length_zero_iff_nil in E.
  now apply (lstrip_last_nonspace (rev s) c Hc).
Qed.

(** [query.strip()] is empty exactly for the blank strings. *)
Lemma strip_nil_iff_blank (s : pystr) : strip s = [] <-> blank s = true.
Proof.
  split; [|apply strip_blank].
  unfold strip, rstrip. intros E.
  apply (f_equal (@rev Z)) in E. rewrite rev_involutive in E. simpl in E.
  apply lstrip_nil_blank in E. unfold blank in E.
  assert (B : blank (lstrip s) = true).
  { unfold blank. rewrite forallb_forall in *. intros x Hx.
    apply E. now apply in_rev in Hx. }
  clear E. unfold blank in *. induction s as [|c s IH]; simpl in *.
  - reflexivity.
  - destruct (isspace c) eqn:Hc; simpl.
    + now apply IH.
    + simpl in B. now rewrite Hc in B.
Qed.

(** ** Integers *)

Lemma pos_digits_head (fuel : nat) :
  forall n acc,
    0 <= n ->
    (fuel = O -> exists d rest, acc = d :: rest /\ 48 <= d <= 57) ->
    (forall d rest, acc = d :: rest -> 48 <= d <= 57) ->
    exists d rest, pos_digits fuel n acc = d :: rest /\ 48 <= d <= 57.
Proof.
  induction fuel as [|fuel IH]; intros n acc Hn H0 Hacc; simpl.
  - now apply H0.
  - destruct (Z.ltb_spec n 10).
    + exists (digit_char n), acc. unfold digit_char. split; [reflexivity|lia].
    + apply IH.
      * apply Z.div_pos; lia.
      * intros _. exists (digit_char (n mod 10)), acc.
        split; [reflexivity|]. unfold digit_char.
        pose proof (Z.mod_pos_bound n 10). lia.
      * intros d rest E. injection E as <- _. unfold digit_char.
        pose proof (Z.mod_pos_bound n 10). lia.
Qed.

(** A printed integer starts with a digit or with the minus sign. *)
Lemma int_repr_head (n : Z) :
  exists d rest, int_repr n = d :: rest /\ (d = 45 \/ 48 <= d <= 57).
Proof.
  unfold int_repr. destruct (Z.ltb_spec n 0).
  - exists 45, (nat_repr (- n)). auto.
  - destruct (pos_digits_head (S (Z.to_nat (Z.log2 n))) n []) as (d & rest & E & Hd).
    + assumption.
    + discriminate.
    + discriminate.
    + exists d, rest. unfold nat_repr. auto.
Qed.

(** ** The document loop *)

Section DocumentLoop.

Variable isprintable : Z -> bool.

(** The loop appends one block per item, numbering upwards. *)
Lemma format_documents_loop_blocks (items : list value) :
  forall index parts,
    Server._format_documents_loop isprintable index items parts
    = parts ++ blocks_from isprintable index items.
Proof.
  induction items as [|item items IH]; intros index parts; simpl.
  - now rewrite app_nil_r.
  - destruct item; rewrite IH, <- app_assoc; reflexivity.
Qed.

Lemma format_documents_blocks (items : list value) :
  Server._format_documents isprintable items
  = join [LF; LF] (blocks_from isprintable 1 items).
Proof.
  unfold Server._format_documents.
  now rewrite format_documents_loop_blocks.
Qed.

Lemma blocks_from_length (items : list value) :
  forall index,
    List.length (blocks_from isprintable index items) = List.length items.
Proof.
  induction items as [|item items IH]; intros index; simpl; congruence.
Qed.

Lemma blocks_from_nth (items : list value) :
  forall index k item,
    nth_error items k = Some item ->
    nth_error (blocks_from isprintable index items) k
    = Some (block isprintable (index + Z.of_nat k) item).
Proof.
  induction items as [|x items IH]; intros index k item H.
  - destruct k; discriminate.
  - destruct k as [|k]; simpl in *.
    + injection H as ->. now rewrite Z.add_0_r.
    + rewrite (IH (index + 1) k item H). do 2 f_equal. lia.
Qed.

(** The first section line carries the number. *)
Lemma section_lines_head (index : Z) (item : pydict) :
  exists text rest,
    Server.section_lines isprintable index item
    = (int_repr index ++ lit ". " ++ text) :: rest.
Proof.
  unfold Server.section_lines. cbv zeta.
  repeat match goal with
         | |- context [if ?b then _ else _] => destruct b
         end; cbn [app];
    first [ now eauto | now (exists (lit "(no content)"); eexists) ].
Qed.

Lemma block_startswith_index (index : Z) (item : value) :
  startswith (block isprintable index item) (int_repr index ++ lit ". ") = true.
Proof.
  assert (G : forall text tail,
             startswith ((int_repr index ++ lit ". " ++ text) ++ tail)
               (int_repr index ++ lit ". ") = true).
  { intros text tail. rewrite !app_assoc, <- !app_assoc, app_assoc.
    apply startswith_app. }
  destruct item as [| | | | | |d]; cbn [block];
    try (rewrite app_assoc; apply startswith_app).
  destruct (section_lines_head index d) as (text & rest & ->).
  destruct (join_cons [LF] (int_repr index ++ lit ". " ++ text) rest) as (tail & E).
  etransitivity; [|exact (G text tail)]. f_equal. exact E.
Qed.

(** The rendering of a non-empty list opens with ["1. "]. *)
Lemma format_documents_startswith_1 (items : list value) :
  items <> [] ->
  startswith (Server._format_documents isprintable items) (lit "1. ") = true.
Proof.
  intros H. rewrite format_documents_blocks.
  destruct items as [|item items]; [congruence|]. simpl blocks_from.
  destruct (join_cons [LF; LF] (block isprintable 1 item)
              (blocks_from isprintable (1 + 1) items)) as (tail & E).
  etransitivity;
    [|exact (startswith_app_l (lit "1. ") (block isprintable 1 item) tail
               (block_startswith_index 1 item))].
  f_equal. exact E.
Qed.

Lemma format_documents_not_blank (items : list value) :
  items <> [] ->
  truthy (PyStr (strip (Server._format_documents isprintable items))) = true.
Proof.
  intros H. pose proof (format_documents_startswith_1 items H) as S.
  destruct (Server._format_documents isprintable items) as [|c s]; [discriminate|].
  simpl in S. apply andb_true_iff in S as [C _]. apply Z.eqb_eq in C. subst c.
  pose proof (strip_head_nonspace 49 s eq_refl) as N.
  simpl. now destruct (strip (49 :: s)).
Qed.

(** ** The priority loop *)

(** Keys whose field is not a sequence are passed over. *)
Lemma format_payload_loop_skip (payload : pydict) (earlier rest : list pystr) :
  Forall (not_a_list payload) earlier ->
  Server._format_payload_loop isprintable (earlier ++ rest) payload
  = Server._format_payload_loop isprintable rest payload.
Proof.
  induction 1 as [|key earlier Hkey _ IH]; cbn [app Server._format_payload_loop].
  - reflexivity.
  - unfold not_a_list in Hkey.
    destruct (dict_get payload key); try exact IH. discriminate.
Qed.

(** A key whose field is a sequence ends the loop. *)
Lemma format_payload_loop_hit (payload : pydict) (key : pystr)
    (later : list pystr) (items : list value) :
  dict_get payload key = PyList items ->
  Server._format_payload_loop isprintable (key :: later) payload
  = render_selected isprintable items.
Proof.
  intros H. cbn [Server._format_payload_loop]. rewrite H.
  destruct items as [|item items]; [reflexivity|].
  assert (N : item :: items <> []) by discriminate.
  change (truthy (PyList (item :: items))) with true. cbn [negb render_selected].
  now rewrite (format_documents_not_blank _ N).
Qed.

Lemma format_payload_selected (payload : pydict) (earlier : list pystr)
    (key : pystr) (later : list pystr) (items : list value) :
  PRIORITY = earlier ++ key :: later ->
  Forall (not_a_list payload) earlier ->
  dict_get payload key = PyList items ->
  Server._format_payload isprintable payload = render_selected isprintable items.
Proof.
  intros HP He Hk. unfold Server._format_payload.
  change [lit "items"; lit "data"; lit "documents"; lit "results"] with PRIORITY.
  rewrite HP, (format_payload_loop_skip payload earlier _ He).
  now apply format_payload_loop_hit.
Qed.

End DocumentLoop.

(** ** The normaliser *)

(** C1.  The result list is the value of the first field among [items],
    [data], [documents], [results] that holds a sequence: fields of
    earlier priority that do not hold a sequence are passed over, the
    output is what the normaliser makes of that list alone, and a
    payload that agrees on the fields up to and including the selected
    one is normalised to the same text, whatever its later fields hold. *)
Theorem first_sequence_field_selected (isprintable : Z -> bool)
    (payload payload' : pydict) (earlier : list pystr) (key : pystr)
    (later : list pystr) (items : list value) :
  PRIORITY = earlier ++ key :: later ->
  Forall (not_a_list payload) earlier ->
  dict_get payload key = PyList items ->
  Server._format_payload isprintable payload = render_selected isprintable items
  /\ ((forall k, In k (earlier ++ [key]) -> dict_get payload' k = dict_get payload k) ->
      Server._format_payload isprintable payload'
      = Server._format_payload isprintable payload).
Proof.
  intros HP He Hk.
  pose proof (format_payload_selected isprintable payload earlier key later
                items HP He Hk) as R.
  split; [exact R|]. intros Hagree. rewrite R.
  apply (format_payload_selected isprintable payload' earlier key later items HP).
  - rewrite Forall_forall in *. intros k Hin. unfold not_a_list.
    rewrite Hagree by (apply in_or_app; now left). now apply He.
  - rewrite Hagree by (apply in_or_app; right; now left). exact Hk.
Qed.

Lemma first_sequence_field_selected_witness :
  PRIORITY = [lit "items"] ++ lit "data" :: [lit "documents"; lit "results"]
  /\ Forall (not_a_list payload_mixed) [lit "items"]
  /\ dict_get payload_mixed (lit "data") = PyList [PyStr (lit "a")]
  /\ Server._format_payload ascii_printable payload_mixed = lit "1. a"
  /\ Server._format_payload ascii_printable payload_mixed_variant = lit "1. a".
Proof.
  assert (HP : PRIORITY
               = [lit "items"] ++ lit "data" :: [lit "documents"; lit "results"])
    by reflexivity.
  assert (He : Forall (not_a_list payload_mixed) [lit "items"])
    by (repeat constructor).
  assert (Hk : dict_get payload_mixed (lit "data") = PyList [PyStr (lit "a")])
    by reflexivity.
  destruct (first_sequence_field_selected ascii_printable payload_mixed
              payload_mixed_variant _ _ _ _ HP He Hk) as [R A].
  split; [exact HP|]. split; [exact He|]. split; [exact Hk|]. split.
  - exact R.
  - rewrite A; [exact R|]. intros k [<-|[<-|[]]]; reflexivity.
Defined.

(** C2.  [{"results": [{"content": "Use 5S", "score": 0.9,
    "metadata": {"tag": "lean"}}]}] is normalised to a single block: the
    line [1. Use 5S], then a [score: 0.9] line, then a
    [metadata: {"tag": "lean"}] line. *)
Theorem normalise_use_5s (isprintable : Z -> bool) :
  Server._format_payload isprintable payload_5s
  = join [LF; LF]
      [ join [LF]
          [ lit "1. Use 5S";
            lit "   score: 0.9";
            lit "   metadata: {" ++ quoted (lit "tag") ++ lit ": "
              ++ quoted (lit "lean") ++ lit "}" ] ].
Proof. vm_compute. reflexivity. Qed.

(** C3.  When the first priority field that holds a sequence holds the
    empty one, the output is exactly "No matching documents were
    found.", whatever the later fields hold. *)
Theorem empty_first_sequence_no_match (isprintable : Z -> bool)
    (payload : pydict) (earlier : list pystr) (key : pystr)
    (later : list pystr) :
  PRIORITY = earlier ++ key :: later ->
  Forall (not_a_list payload) earlier ->
  dict_get payload key = PyList [] ->
  Server._format_payload isprintable payload
  = lit "No matching documents were found.".
Proof.
  intros HP He Hk.
  exact (format_payload_selected isprintable payload earlier key later [] HP He Hk).
Qed.

Lemma empty_first_sequence_no_match_witness :
  PRIORITY = [lit "items"] ++ lit "data" :: [lit "documents"; lit "results"]
  /\ Forall (not_a_list payload_empty_first) [lit "items"]
  /\ dict_get payload_empty_first (lit "data") = PyList []
  /\ dict_get payload_empty_first (lit "results")
     = PyList [PyStr (lit "a"); PyStr (lit "b")]
  /\ Server._format_payload ascii_printable payload_empty_first
     = lit "No matching documents were found.".
Proof.
  split; [reflexivity|]. split; [repeat constructor|].
  split; [reflexivity|]. split; [reflexivity|].
  apply (empty_first_sequence_no_match ascii_printable payload_empty_first
           [lit "items"] (lit "data") [lit "documents"; lit "results"]).
  - reflexivity.
  - repeat constructor.
  - reflexivity.
Defined.

(** C4.  For a non-empty list selected from any of the four fields, the
    output is the blocks of its elements, one per element and in input
    order, separated by a blank line; the block of the element in
    position [k] (counting from 0) opens with the number [k + 1]. *)
Theorem one_numbered_block_per_element (isprintable : Z -> bool)
    (payload : pydict) (earlier : list pystr) (key : pystr)
    (later : list pystr) (items : list value) :
  PRIORITY = earlier ++ key :: later ->
  Forall (not_a_list payload) earlier ->
  dict_get payload key = PyList items ->
  items <> [] ->
  Server._format_payload isprintable payload
  = join [LF; LF] (blocks_from isprintable 1 items)
  /\ List.length (blocks_from isprintable 1 items) = List.length items
  /\ forall k item,
       nth_error items k = Some item ->
       exists b,
         nth_error (blocks_from isprintable 1 items) k = Some b
         /\ b = block isprintable (Z.of_nat k + 1) item
         /\ startswith b (int_repr (Z.of_nat k + 1) ++ lit ". ") = true.
Proof.
  intros HP He Hk Hne. split; [|split].
  - rewrite (format_payload_selected isprintable payload earlier key later
               items HP He Hk).
    destruct items as [|item items]; [congruence|].
    cbn [render_selected]. apply format_documents_blocks.
  - apply blocks_from_length.
  - intros k item Hnth. exists (block isprintable (Z.of_nat k + 1) item).
    split; [|split].
    + rewrite (blocks_from_nth isprintable items 1 k item Hnth).
      do 2 f_equal. lia.
    + reflexivity.
    + apply block_startswith_index.
Qed.

Lemma one_numbered_block_per_element_witness :
  Server._format_payload ascii_printable payload_three
  = join [LF; LF]
      [ join [LF] [lit "1. t"; lit "   score: 7"];
        lit "2. None";
        lit "3. ['q', 3]" ].
Proof.
  destruct (one_numbered_block_per_element ascii_printable payload_three
              [lit "items"; lit "data"] (lit "documents") [lit "results"]
              [ PyDict [(lit "text", PyStr (lit "t")); (lit "score", PyInt 7)];
                PyNone;
                PyList [PyStr (lit "q"); PyInt 3] ])
    as (E & _ & _).
  - reflexivity.
  - repeat constructor.
  - reflexivity.
  - discriminate.
  - rewrite E. reflexivity.
Defined.

(** C5.  When none of [items], [data], [documents], [results] holds a
    sequence, the output is the whole payload serialised as JSON with an
    indent of two, and it is not the empty string. *)
Theorem no_sequence_field_raw_json (isprintable : Z -> bool)
    (payload : pydict) :
  Forall (not_a_list payload) PRIORITY ->
  Server._format_payload isprintable payload
  = json_dumps (Some 2%nat) (PyDict payload)
  /\ Server._format_payload isprintable payload <> [].
Proof.
  intros H.
  assert (E : Server._format_payload isprintable payload
              = json_dumps (Some 2%nat) (PyDict payload)).
  { unfold Server._format_payload.
    change [lit "items"; lit "data"; lit "documents"; lit "results"]
      with PRIORITY.
    rewrite <- (app_nil_r PRIORITY).
    now rewrite (format_payload_loop_skip isprintable payload PRIORITY [] H). }
  split; [exact E|]. rewrite E.
  unfold json_dumps. destruct payload; discriminate.
Qed.

Lemma no_sequence_field_raw_json_witness :
  Forall (not_a_list payload_status) PRIORITY
  /\ Server._format_payload ascii_printable payload_status
     = join [LF]
         [ lit "{";
           lit "  " ++ quoted (lit "status") ++ lit ": " ++ quoted (lit "ok");
           lit "}" ].
Proof.
  assert (H : Forall (not_a_list payload_status) PRIORITY)
    by (repeat constructor).
  split; [exact H|].
  destruct (no_sequence_field_raw_json ascii_printable payload_status H)
    as [E _].
  rewrite E. reflexivity.
Defined.

(** ** Score lines *)

Lemma numbered_line_not_score (index : Z) (text : pystr) :
  startswith (int_repr index ++ text) (lit "   score: ") = false.
Proof.
  destruct (int_repr_head index) as (d & rest & -> & Hd).
  cbn [app]. change (lit "   score: ") with (32 :: lit "  score: ").
  cbn [startswith]. destruct (Z.eqb_spec d 32); [lia | reflexivity].
Qed.

(** The lines of a block: the numbered line, then the score line if the
    score is not [None], then the metadata line if the metadata is
    truthy. *)
Lemma section_lines_shape (isprintable : Z -> bool) (index : Z)
    (item : pydict) :
  exists text,
    Server.section_lines isprintable index item
    = (int_repr index ++ text)
        :: (if is_not_none (dict_get item (lit "score"))
            then [lit "   score: "
                    ++ py_str isprintable (dict_get item (lit "score"))]
            else [])
        ++ (if truthy (py_or (dict_get item (lit "metadata")) (PyDict []))
            then [lit "   metadata: "
                    ++ json_dumps None
                         (py_or (dict_get item (lit "metadata")) (PyDict []))]
            else []).
Proof.
  unfold Server.section_lines. cbv zeta.
  repeat match goal with
         | |- context [if ?b then _ else _] => destruct b
         end; eexists; cbn [app]; reflexivity.
Qed.

Lemma has_score_line_section_lines (isprintable : Z -> bool) (index : Z)
    (item : pydict) :
  has_score_line (Server.section_lines isprintable index item)
  = is_not_none (dict_get item (lit "score")).
Proof.
  destruct (section_lines_shape isprintable index item) as (text & ->).
  unfold has_score_line. cbn [existsb].
  rewrite numbered_line_not_score. cbn [orb].
  destruct (is_not_none (dict_get item (lit "score")));
    destruct (truthy (py_or (dict_get item (lit "metadata")) (PyDict [])));
    cbn [app existsb]; rewrite ?startswith_app; reflexivity.
Qed.

Lemma is_not_none_lookup (item : pydict) (key : pystr) :
  is_not_none (dict_get item key) = true
  <-> exists v, dict_lookup item key = Some v /\ v <> PyNone.
Proof.
  unfold dict_get. destruct (dict_lookup item key) as [v|].
  - split.
    + intros H. exists v. split; [reflexivity|]. intros ->. discriminate.
    + intros (v' & E & N). injection E as <-. now destruct v.
  - split; [discriminate|]. intros (v & E & _). discriminate.
Qed.

(** C6, as the code has it.  The block of a mapping gets a score line
    exactly when the mapping has a [score] field whose value is not
    [None]; the line is then the second line of the block and reads
    ["   score: "] followed by [str] of the value. *)
Theorem score_line_iff_score_not_none (isprintable : Z -> bool) (index : Z)
    (item : pydict) :
  (has_score_line (Server.section_lines isprintable index item) = true
   <-> exists v, dict_lookup item (lit "score") = Some v /\ v <> PyNone)
  /\ (forall v,
        dict_lookup item (lit "score") = Some v -> v <> PyNone ->
        nth_error (Server.section_lines isprintable index item) 1
        = Some (lit "   score: " ++ py_str isprintable v)).
Proof.
  split.
  - rewrite has_score_line_section_lines. apply is_not_none_lookup.
  - intros v E N.
    destruct (section_lines_shape isprintable index item) as (text & ->).
    assert (G : dict_get item (lit "score") = v)
      by (unfold dict_get; now rewrite E).
    rewrite G. replace (is_not_none v) with true by (now destruct v).
    reflexivity.
Qed.

Lemma score_line_iff_score_not_none_witness :
  dict_lookup item_false_score (lit "score") = Some (PyBool false)
  /\ PyBool false <> PyNone
  /\ nth_error (Server.section_lines ascii_printable 1 item_false_score) 1
     = Some (lit "   score: False").
Proof.
  split; [reflexivity|]. split; [discriminate|].
  destruct (score_line_iff_score_not_none ascii_printable 1 item_false_score)
    as [_ H].
  exact (H (PyBool false) eq_refl ltac:(discriminate)).
Defined.

(** C6, as stated, fails: [{"score": null}] has a [score] field, and its
    block has no score line. *)
Lemma null_score_has_no_score_line :
  dict_contains item_null_score (lit "score") = true
  /\ Server.section_lines ascii_printable 1 item_null_score
     = [lit "1. (no content)"]
  /\ ~ score_line_iff_field ascii_printable 1 item_null_score.
Proof.
  split; [reflexivity|]. split; [reflexivity|].
  intros [_ H]. specialize (H eq_refl). discriminate H.
Qed.

(** ** The retrieval client *)

Lemma build_headers_keeps_world (w : World) :
  snd (Server._build_headers w) = w.
Proof.
  unfold Server._build_headers, bind, os_getenv.
  destruct (env_lookup (environ w) Server._DATASET_TOKEN_ENV) as [token|].
  - destruct (truthy (PyStr token)); reflexivity.
  - reflexivity.
Qed.

Lemma query_guard (query : pystr) :
  negb (truthy (PyStr query)) || negb (truthy (PyStr (strip query)))
  = blank query.
Proof.
  destruct (blank query) eqn:B.
  - rewrite (strip_blank query B). apply orb_true_r.
  - assert (N : strip query <> []).
    { intros E. apply strip_nil_iff_blank in E. congruence. }
    destruct query as [|c query]; [discriminate|].
    destruct (strip (c :: query)); [congruence | reflexivity].
Qed.

(** C7.  A query that is empty or all whitespace is rejected with
    [ValueError("Query text must not be empty.")], for every dataset
    identifier, and the world is left as it was: no request has been
    sent. *)
Theorem blank_query_rejected_before_network (isprintable : Z -> bool)
    (w : World) (query data_id : pystr) :
  blank query = true ->
  Server._query_dataset isprintable query data_id w
  = (inl (ValueError (lit "Query text must not be empty.")), w).
Proof.
  intros B. unfold Server._query_dataset.
  now rewrite query_guard, B.
Qed.

Lemma blank_query_rejected_before_network_witness :
  blank (lit "   ") = true
  /\ Server._query_dataset ascii_printable (lit "   ") Server._UX_DATASET_ID
       world_500
     = (inl (ValueError EMPTY_QUERY), world_500).
Proof.
  split; [reflexivity|].
  apply (blank_query_rejected_before_network ascii_printable world_500
           (lit "   ") Server._UX_DATASET_ID).
  reflexivity.
Defined.

(** C8.  When the service answers the request with a status outside
    200..299, the call raises [HTTPStatusError] carrying that response;
    the outcome does not depend on the body, and the world shows exactly
    one more request than before. *)
Theorem failed_status_is_final (isprintable : Z -> bool) (w : World)
    (query data_id : pystr) (hdrs : list (pystr * pystr))
    (response : Response) :
  blank query = false ->
  fst (Server._build_headers w) = inr hdrs ->
  upstream w (sent w) (request_for hdrs query data_id) = inr response ->
  is_success response = false ->
  Server._query_dataset isprintable query data_id w
  = (inl (HTTPStatusError response),
     after_request w (request_for hdrs query data_id)).
Proof.
  intros B Hh Hu Hs. unfold Server._query_dataset.
  rewrite query_guard, B. unfold bind at 1.
  pose proof (build_headers_keeps_world w) as Hw.
  destruct (Server._build_headers w) as [r w1]. simpl in Hh, Hw. subst r w1.
  unfold bind at 1, client_post.
  change {| url := Server._DATASET_URL_TEMPLATE data_id; headers := hdrs;
            json := PyDict [(lit "query", PyStr query)]; timeout := 30 |}
    with (request_for hdrs query data_id).
  rewrite Hu. unfold bind, raise_for_status. rewrite Hs. reflexivity.
Qed.

Lemma failed_status_is_final_witness :
  blank (lit "5S") = false
  /\ is_success response_500 = false
  /\ Server._query_dataset ascii_printable (lit "5S") Server._LEAN_DATASET_ID
       world_500
     = (inl (HTTPStatusError response_500),
        after_request world_500
          (request_for
             [ (lit "Authorization",
                lit "Bearer dataset-gCRaKZgnKtvqLdeuoCFjKiME");
               (lit "Content-Type", lit "application/json") ]
             (lit "5S") Server._LEAN_DATASET_ID)).
Proof.
  split; [reflexivity|]. split; [reflexivity|].
  apply (failed_status_is_final ascii_printable world_500 (lit "5S")
           Server._LEAN_DATASET_ID); reflexivity.
Defined.

(** ** The two servers *)

(** C9.  The credential headers, the document formatter, the payload
    normaliser and the dataset query of the pipe-transport server and
    of the HTTP/SSE server are the same functions. *)
Theorem server_variants_agree :
  (forall w, Server._build_headers w = BuildLibServer._build_headers w)
  /\ (forall isprintable items,
        Server._format_documents isprintable items
        = BuildLibServer._format_documents isprintable items)
  /\ (forall isprintable payload,
        Server._format_payload isprintable payload
        = BuildLibServer._format_payload isprintable payload)
  /\ (forall isprintable query data_id w,
        Server._query_dataset isprintable query data_id w
        = BuildLibServer._query_dataset isprintable query data_id w).
Proof.
  assert (L : forall isprintable items index parts,
             Server._format_documents_loop isprintable index items parts
             = BuildLibServer._format_documents_loop isprintable index items parts).
  { intros isprintable items.
    induction items as [|item items IH]; intros index parts.
    - reflexivity.
    - cbn [Server._format_documents_loop BuildLibServer._format_documents_loop].
      rewrite IH. reflexivity. }
  assert (D : forall isprintable items,
             Server._format_documents isprintable items
             = BuildLibServer._format_documents isprintable items).
  { intros. unfold Server._format_documents, BuildLibServer._format_documents.
    now rewrite L. }
  assert (P : forall isprintable payload keys,
             Server._format_payload_loop isprintable keys payload
             = BuildLibServer._format_payload_loop isprintable keys payload).
  { intros isprintable payload keys. induction keys as [|key keys IH].
    - reflexivity.
    - cbn [Server._format_payload_loop BuildLibServer._format_payload_loop].
      destruct (dict_get payload key); rewrite ?IH, ?D; reflexivity. }
  assert (F : forall isprintable payload,
             Server._format_payload isprintable payload
             = BuildLibServer._format_payload isprintable payload).
  { intros. unfold Server._format_payload, BuildLibServer._format_payload.
    apply P. }
  split; [reflexivity|]. split; [exact D|]. split; [exact F|].
  intros isprintable query data_id w.
  unfold Server._query_dataset, BuildLibServer._query_dataset.
  destruct (negb (truthy (PyStr query)) || negb (truthy (PyStr (strip query))));
    [reflexivity|].
  unfold bind.
  change BuildLibServer._build_headers with Server._build_headers.
  change (BuildLibServer._DATASET_URL_TEMPLATE data_id)
    with (Server._DATASET_URL_TEMPLATE data_id).
  destruct (Server._build_headers w) as [[e|hdrs] w1]; [reflexivity|].
  destruct (client_post 30 _ hdrs _ w1) as [[e|response] w2]; [reflexivity|].
  destruct (raise_for_status response w2) as [[e|u] w3]; [reflexivity|].
  destruct (response_json response w3) as [[e|payload] w4]; [reflexivity|].
  destruct payload as [| | | | | |d]; cbn [ret raise];
    rewrite ?(F isprintable d); reflexivity.
Qed.

(** ** The blank-rendering guard *)

(** C10.  The rendering of a non-empty list opens with ["1. "], so it is
    not blank: [formatted.strip()] is truthy, and a loop iteration that
    meets a non-empty list returns its rendering, whatever keys and
    fields come after. *)
Theorem nonempty_rendering_never_blank (isprintable : Z -> bool)
    (items : list value) :
  items <> [] ->
  startswith (Server._format_documents isprintable items) (lit "1. ") = true
  /\ strip (Server._format_documents isprintable items) <> []
  /\ truthy (PyStr (strip (Server._format_documents isprintable items))) = true
  /\ forall payload key later,
       dict_get payload key = PyList items ->
       Server._format_payload_loop isprintable (key :: later) payload
       = Server._format_documents isprintable items.
Proof.
  intros H.
  pose proof (format_documents_not_blank isprintable items H) as T.
  split; [now apply format_documents_startswith_1|].
  split; [|split; [exact T|]].
  - intros E. rewrite E in T. discriminate.
  - intros payload key later Hk.
    rewrite (format_payload_loop_hit isprintable payload key later items Hk).
    destruct items; [congruence | reflexivity].
Qed.

Lemma nonempty_rendering_never_blank_witness :
  [PyStr []] <> []
  /\ Server._format_documents ascii_printable [PyStr []] = lit "1. "
  /\ strip (Server._format_documents ascii_printable [PyStr []]) <> [].
Proof.
  split; [discriminate|]. split; [reflexivity|].
  destruct (nonempty_rendering_never_blank ascii_printable [PyStr []])
    as (_ & N & _); [discriminate|].
  exact N.
Defined.

(* ================================================================== *)
(** * Further properties of the retrieval client *)
(* ================================================================== *)

(** ** Credentials *)

Lemma build_headers_result (w : World) :
  Server._build_headers w
  = (match env_lookup (environ w) Server._DATASET_TOKEN_ENV with
     | Some [] => inl (RuntimeError TOKEN_REQUIRED)
     | Some token => inr (headers_for token)
     | None => inr (headers_for Server._DEFAULT_DATASET_TOKEN)
     end, w).
Proof.
  unfold Server._build_headers, bind, os_getenv.
  destruct (env_lookup (environ w) Server._DATASET_TOKEN_ENV) as [[|c token]|];
    reflexivity.
Qed.


(** X1.  [_build_headers] leaves the world alone.  It raises only the
    [RuntimeError] about the missing token, and exactly when
    [DIFY_DATASET_TOKEN] is set to the empty string; otherwise it
    returns the [Bearer] and content-type pair around a non-empty
    token, the variable's value when it is set and the built-in default
    when it is not. *)
Theorem build_headers_cases (w : World) :
  snd (Server._build_headers w) = w
  /\ (fst (Server._build_headers w) = inl (RuntimeError TOKEN_REQUIRED)
      <-> env_lookup (environ w) Server._DATASET_TOKEN_ENV = Some [])
  /\ (forall e, fst (Server._build_headers w) = inl e ->
                e = RuntimeError TOKEN_REQUIRED)
  /\ (forall hdrs,
        fst (Server._build_headers w) = inr hdrs ->
        exists token,
          token <> [] /\ hdrs = headers_for token
          /\ (env_lookup (environ w) Server._DATASET_TOKEN_ENV = Some token
              \/ (env_lookup (environ w) Server._DATASET_TOKEN_ENV = None
                  /\ token = Server._DEFAULT_DATASET_TOKEN))).
Proof.
  rewrite build_headers_result. cbn [fst snd].
  destruct (env_lookup (environ w) Server._DATASET_TOKEN_ENV) as [[|c token]|].
  - repeat split; try discriminate; congruence.
  - split; [reflexivity|]. split; [split; discriminate|].
    split; [discriminate|]. intros hdrs E. injection E as <-.
    exists (c :: token). repeat split; [discriminate | now left].
  - split; [reflexivity|]. split; [split; discriminate|].
    split; [discriminate|]. intros hdrs E. injection E as <-.
    exists Server._DEFAULT_DATASET_TOKEN.
    repeat split; [discriminate | now right].
Qed.

Lemma build_headers_cases_witness :
  fst (Server._build_headers
         (world_answering [(Server._DATASET_TOKEN_ENV, lit "tok")]
            (inr response_500)))
  = inr (headers_for (lit "tok"))
  /\ exists token,
       token <> [] /\ headers_for (lit "tok") = headers_for token
       /\ (Some (lit "tok") = Some token
           \/ (Some (lit "tok") = None
               /\ token = Server._DEFAULT_DATASET_TOKEN)).
Proof.
  split; [reflexivity|].
  destruct (build_headers_cases
              (world_answering [(Server._DATASET_TOKEN_ENV, lit "tok")]
                 (inr response_500))) as (_ & _ & _ & H).
  exact (H (headers_for (lit "tok")) eq_refl).
Defined.

(** ** One call, step by step *)

(** What a call does once the query has passed validation and the
    credential has been resolved. *)
Lemma query_dataset_after_validation (isprintable : Z -> bool) (w : World)
    (query data_id : pystr) (hdrs : list (pystr * pystr)) :
  blank query = false ->
  fst (Server._build_headers w) = inr hdrs ->
  Server._query_dataset isprintable query data_id w
  = (match upstream w (sent w) (request_for hdrs query data_id) with
     | inl e => inl e
     | inr response =>
         if is_success response then
           match decoded response with
           | None => inl JSONDecodeError
           | Some (PyDict d) => inr (Server._format_payload isprintable d)
           | Some _ => inl AttributeError
           end
         else inl (HTTPStatusError response)
     end,
     after_request w (request_for hdrs query data_id)).
Proof.
  intros B Hh. unfold Server._query_dataset.
  rewrite query_guard, B. unfold bind at 1.
  pose proof (build_headers_keeps_world w) as Hw.
  destruct (Server._build_headers w) as [r w1]. simpl in Hh, Hw. subst r w1.
  unfold bind at 1, client_post.
  change {| url := Server._DATASET_URL_TEMPLATE data_id; headers := hdrs;
            json := PyDict [(lit "query", PyStr query)]; timeout := 30 |}
    with (request_for hdrs query data_id).
  change {| environ := environ w; upstream := upstream w;
            sent := sent w ++ [request_for hdrs query data_id] |}
    with (after_request w (request_for hdrs query data_id)).
  destruct (upstream w (sent w) (request_for hdrs query data_id))
    as [e|response]; [reflexivity|].
  unfold bind, raise_for_status, response_json.
  destruct (is_success response); [|reflexivity].
  cbn [ret]. destruct (decoded response) as [[| | | | | |d]|]; reflexivity.
Qed.

(** What a call does when the credential cannot be resolved. *)
Lemma query_dataset_no_credential (isprintable : Z -> bool) (w : World)
    (query data_id : pystr) (e : exn) :
  blank query = false ->
  fst (Server._build_headers w) = inl e ->
  Server._query_dataset isprintable query data_id w = (inl e, w).
Proof.
  intros B Hh. unfold Server._query_dataset.
  rewrite query_guard, B. unfold bind at 1.
  pose proof (build_headers_keeps_world w) as Hw.
  destruct (Server._build_headers w) as [r w1]. simpl in Hh, Hw. subst r w1.
  reflexivity.
Qed.

(** X2.  With [DIFY_DATASET_TOKEN] set to the empty string, a query that
    passes validation fails with the [RuntimeError] about the missing
    token and nothing is sent: the credential is resolved before the
    request goes out. *)
Theorem empty_token_fails_before_network (isprintable : Z -> bool)
    (w : World) (query data_id : pystr) :
  blank query = false ->
  env_lookup (environ w) Server._DATASET_TOKEN_ENV = Some [] ->
  Server._query_dataset isprintable query data_id w
  = (inl (RuntimeError TOKEN_REQUIRED), w).
Proof.
  intros B E. apply query_dataset_no_credential; [exact B|].
  rewrite build_headers_result. cbn [fst]. now rewrite E.
Qed.

Lemma empty_token_fails_before_network_witness :
  blank (lit "5S") = false
  /\ Server._query_dataset ascii_printable (lit "5S") Server._UX_DATASET_ID
       (world_answering [(Server._DATASET_TOKEN_ENV, [])] (inr response_200_empty))
     = (inl (RuntimeError TOKEN_REQUIRED),
        world_answering [(Server._DATASET_TOKEN_ENV, [])] (inr response_200_empty)).
Proof.
  split; [reflexivity|].
  apply (empty_token_fails_before_network ascii_printable
           (world_answering [(Server._DATASET_TOKEN_ENV, [])]
              (inr response_200_empty))); reflexivity.
Defined.



(** X4.  A transport fault raised by the POST (connection failure,
    timeout) comes out of the call unchanged, after the one request; it
    is neither caught nor retried. *)
Theorem transport_fault_propagates (isprintable : Z -> bool) (w : World)
    (query data_id : pystr) (hdrs : list (pystr * pystr)) (e : exn) :
  blank query = false ->
  fst (Server._build_headers w) = inr hdrs ->
  upstream w (sent w) (request_for hdrs query data_id) = inl e ->
  Server._query_dataset isprintable query data_id w
  = (inl e, after_request w (request_for hdrs query data_id)).
Proof.
  intros B Hh Hu.
  rewrite (query_dataset_after_validation isprintable w query data_id hdrs B Hh).
  now rewrite Hu.
Qed.

Lemma transport_fault_propagates_witness :
  blank (lit "5S") = false
  /\ fst (Server._query_dataset ascii_printable (lit "5S") (lit "d")
            (world_answering [] (inl TransportError)))
     = inl TransportError.
Proof.
  split; [reflexivity|].
  rewrite (transport_fault_propagates ascii_printable
             (world_answering [] (inl TransportError)) (lit "5S") (lit "d")
             (headers_for Server._DEFAULT_DATASET_TOKEN) TransportError);
    reflexivity.
Defined.

(** X5.  A response with a 2xx status whose body is not JSON makes the
    call fail with the decode error of [response.json()]. *)
Theorem undecodable_body_fails (isprintable : Z -> bool) (w : World)
    (query data_id : pystr) (hdrs : list (pystr * pystr))
    (response : Response) :
  blank query = false ->
  fst (Server._build_headers w) = inr hdrs ->
  upstream w (sent w) (request_for hdrs query data_id) = inr response ->
  is_success response = true ->
  decoded response = None ->
  Server._query_dataset isprintable query data_id w
  = (inl JSONDecodeError, after_request w (request_for hdrs query data_id)).
Proof.
  intros B Hh Hu Hs Hd.
  rewrite (query_dataset_after_validation isprintable w query data_id hdrs B Hh).
  now rewrite Hu, Hs, Hd.
Qed.

Lemma undecodable_body_fails_witness :
  blank (lit "5S") = false
  /\ is_success response_200_garbage = true
  /\ fst (Server._query_dataset ascii_printable (lit "5S") (lit "d")
            (world_answering [] (inr response_200_garbage)))
     = inl JSONDecodeError.
Proof.
  split; [reflexivity|]. split; [reflexivity|].
  rewrite (undecodable_body_fails ascii_printable
             (world_answering [] (inr response_200_garbage)) (lit "5S")
             (lit "d") (headers_for Server._DEFAULT_DATASET_TOKEN)
             response_200_garbage); reflexivity.
Defined.

(** X6.  A response with a 2xx status whose body is JSON but not an
    object (an array, a string, a number, [true], [null]) makes the call
    fail with [AttributeError]: [_format_payload] calls [.get] on it.
    An array at the top level is not treated as a result list. *)
Theorem non_object_body_fails (isprintable : Z -> bool) (w : World)
    (query data_id : pystr) (hdrs : list (pystr * pystr))
    (response : Response) (v : value) :
  blank query = false ->
  fst (Server._build_headers w) = inr hdrs ->
  upstream w (sent w) (request_for hdrs query data_id) = inr response ->
  is_success response = true ->
  decoded response = Some v ->
  is_dict v = false ->
  Server._query_dataset isprintable query data_id w
  = (inl AttributeError, after_request w (request_for hdrs query data_id)).
Proof.
  intros B Hh Hu Hs Hd Hv.
  rewrite (query_dataset_after_validation isprintable w query data_id hdrs B Hh).
  rewrite Hu, Hs, Hd. destruct v; try reflexivity. discriminate.
Qed.

Lemma non_object_body_fails_witness :
  blank (lit "5S") = false
  /\ is_success response_200_array = true
  /\ fst (Server._query_dataset ascii_printable (lit "5S") (lit "d")
            (world_answering [] (inr response_200_array)))
     = inl AttributeError.
Proof.
  split; [reflexivity|]. split; [reflexivity|].
  rewrite (non_object_body_fails ascii_printable
             (world_answering [] (inr response_200_array)) (lit "5S")
             (lit "d") (headers_for Server._DEFAULT_DATASET_TOKEN)
             response_200_array (PyList [PyStr (lit "a")])); reflexivity.
Defined.

(** X7.  A response with a 2xx status whose body is a JSON object makes
    the call return the normalised text of that object, after the one
    request. *)
Theorem object_body_is_normalised (isprintable : Z -> bool) (w : World)
    (query data_id : pystr) (hdrs : list (pystr * pystr))
    (response : Response) (payload : pydict) :
  blank query = false ->
  fst (Server._build_headers w) = inr hdrs ->
  upstream w (sent w) (request_for hdrs query data_id) = inr response ->
  is_success response = true ->
  decoded response = Some (PyDict payload) ->
  Server._query_dataset isprintable query data_id w
  = (inr (Server._format_payload isprintable payload),
     after_request w (request_for hdrs query data_id)).
Proof.
  intros B Hh Hu Hs Hd.
  rewrite (query_dataset_after_validation isprintable w query data_id hdrs B Hh).
  now rewrite Hu, Hs, Hd.
Qed.

Lemma object_body_is_normalised_witness :
  blank (lit "5S") = false
  /\ is_success response_200_empty = true
  /\ fst (Server._query_dataset ascii_printable (lit "5S") (lit "d")
            (world_answering [] (inr response_200_empty)))
     = inr NO_MATCH.
Proof.
  split; [reflexivity|]. split; [reflexivity|].
  rewrite (object_body_is_normalised ascii_printable
             (world_answering [] (inr response_200_empty)) (lit "5S")
             (lit "d") (headers_for Server._DEFAULT_DATASET_TOKEN)
             response_200_empty [(lit "data", PyList [])]); reflexivity.
Defined.

(** ** What a call leaves behind *)

Lemma query_dataset_world (isprintable : Z -> bool) (query data_id : pystr)
    (w : World) :
  snd (Server._query_dataset isprintable query data_id w) = w
  \/ exists hdrs,
       snd (Server._query_dataset isprintable query data_id w)
       = after_request w (request_for hdrs query data_id).
Proof.
  destruct (blank query) eqn:B.
  - left. unfold Server._query_dataset. now rewrite query_guard, B.
  - destruct (fst (Server._build_headers w)) as [e|hdrs] eqn:Hh.
    + left. now rewrite (query_dataset_no_credential isprintable w query
                            data_id e B Hh).
    + right. exists hdrs.
      now rewrite (query_dataset_after_validation isprintable w query data_id
                     hdrs B Hh).
Qed.

(** X8.  Whatever the inputs and whatever the outcome, a call never
    touches the environment, and the log of requests afterwards is the
    log before, followed by at most one request, which is a request for
    this query against this dataset. *)
Theorem call_sends_at_most_one_request (isprintable : Z -> bool)
    (query data_id : pystr) (w : World) :
  environ (snd (Server._query_dataset isprintable query data_id w)) = environ w
  /\ (sent (snd (Server._query_dataset isprintable query data_id w)) = sent w
      \/ exists hdrs,
           sent (snd (Server._query_dataset isprintable query data_id w))
           = sent w ++ [request_for hdrs query data_id]).
Proof.
  destruct (query_dataset_world isprintable query data_id w)
    as [->|(hdrs & ->)].
  - split; [reflexivity | now left].
  - split; [reflexivity|]. right. now exists hdrs.
Qed.



(** ** Endpoints and tools *)

(** X10.  The dataset identifier is put into the URL as it is, so
    different identifiers give different endpoints. *)
Theorem distinct_datasets_distinct_urls (d1 d2 : pystr) :
  d1 <> d2 ->
  Server._DATASET_URL_TEMPLATE d1 <> Server._DATASET_URL_TEMPLATE d2.
Proof.
  intros N E. apply N. unfold Server._DATASET_URL_TEMPLATE in E.
  apply app_inv_head in E. now apply app_inv_tail in E.
Qed.

Lemma distinct_datasets_distinct_urls_witness :
  Server._UX_DATASET_ID <> Server._LEAN_DATASET_ID
  /\ Server._DATASET_URL_TEMPLATE Server._UX_DATASET_ID
     <> Server._DATASET_URL_TEMPLATE Server._LEAN_DATASET_ID.
Proof.
  assert (N : Server._UX_DATASET_ID <> Server._LEAN_DATASET_ID)
    by discriminate.
  split; [exact N|].
  exact (distinct_datasets_distinct_urls _ _ N).
Defined.

Lemma query_dataset_requests (isprintable : Z -> bool) (query data_id : pystr)
    (w : World) (r : Request) :
  In r (sent (snd (Server._query_dataset isprintable query data_id w))) ->
  In r (sent w) \/ url r = Server._DATASET_URL_TEMPLATE data_id.
Proof.
  destruct (query_dataset_world isprintable query data_id w)
    as [->|(hdrs & ->)]; intros H.
  - now left.
  - cbn [after_request sent] in H. apply in_app_or in H as [H|[<-|[]]].
    + now left.
    + now right.
Qed.

(** X11.  Each tool reaches its own dataset only: a request that a tool
    call adds to the log goes to the endpoint of that tool's dataset,
    and the three endpoints are pairwise different. *)
Theorem tools_reach_own_endpoint (isprintable : Z -> bool) (query : pystr)
    (w : World) :
  (forall r,
     In r (sent (snd (Server.query_ux_knowledge isprintable query w))) ->
     In r (sent w)
     \/ url r = Server._DATASET_URL_TEMPLATE Server._UX_DATASET_ID)
  /\ (forall r,
        In r (sent (snd (Server.query_lean_knowledge isprintable query w))) ->
        In r (sent w)
        \/ url r = Server._DATASET_URL_TEMPLATE Server._LEAN_DATASET_ID)
  /\ (forall r,
        In r (sent (snd (Server.query_automation_step isprintable query w))) ->
        In r (sent w)
        \/ url r = Server._DATASET_URL_TEMPLATE Server._AUTOMATION_DATASET_ID)
  /\ Server._DATASET_URL_TEMPLATE Server._UX_DATASET_ID
     <> Server._DATASET_URL_TEMPLATE Server._LEAN_DATASET_ID
  /\ Server._DATASET_URL_TEMPLATE Server._UX_DATASET_ID
     <> Server._DATASET_URL_TEMPLATE Server._AUTOMATION_DATASET_ID
  /\ Server._DATASET_URL_TEMPLATE Server._LEAN_DATASET_ID
     <> Server._DATASET_URL_TEMPLATE Server._AUTOMATION_DATASET_ID.
Proof.
  unfold Server.query_ux_knowledge, Server.query_lean_knowledge,
    Server.query_automation_step.
  repeat split; try (intros r; apply query_dataset_requests); discriminate.
Qed.

Lemma tools_reach_own_endpoint_witness :
  sent (snd (Server.query_automation_step ascii_printable
               (lit "how do I deploy?") world_500))
  = [ request_for (headers_for Server._DEFAULT_DATASET_TOKEN)
        (lit "how do I deploy?") Server._AUTOMATION_DATASET_ID ]
  /\ (In (request_for (headers_for Server._DEFAULT_DATASET_TOKEN)
            (lit "how do I deploy?") Server._AUTOMATION_DATASET_ID)
         (sent world_500)
      \/ url (request_for (headers_for Server._DEFAULT_DATASET_TOKEN)
                (lit "how do I deploy?") Server._AUTOMATION_DATASET_ID)
         = Server._DATASET_URL_TEMPLATE Server._AUTOMATION_DATASET_ID).
Proof.
  split; [reflexivity|].
  destruct (tools_reach_own_endpoint ascii_printable (lit "how do I deploy?")
              world_500) as (_ & _ & H & _).
  apply H. left. reflexivity.
Defined.

(** X12.  The three tools of the HTTP/SSE server are the same functions
    as the three tools of the pipe-transport server. *)
Theorem tool_variants_agree (isprintable : Z -> bool) (query : pystr)
    (w : World) :
  Server.query_ux_knowledge isprintable query w
  = BuildLibServer.query_ux_knowledge isprintable query w
  /\ Server.query_lean_knowledge isprintable query w
     = BuildLibServer.query_lean_knowledge isprintable query w
  /\ Server.query_automation_step isprintable query w
     = BuildLibServer.query_automation_step isprintable query w.
Proof. repeat split. Qed.

(* ================================================================== *)
(** * Further properties of the normaliser *)
(* ================================================================== *)

(** ** Lines of a block *)

Lemma numbered_line_not_indented (index : Z) (text prefix : pystr) :
  startswith (int_repr index ++ text) (32 :: prefix) = false.
Proof.
  destruct (int_repr_head index) as (d & rest & -> & Hd).
  cbn [app startswith]. destruct (Z.eqb_spec d 32); [lia | reflexivity].
Qed.

Lemma truthy_or_empty_dict (v : value) :
  truthy (py_or v (PyDict [])) = truthy v.
Proof.
  unfold py_or. destruct (truthy v) eqn:T; [exact T | reflexivity].
Qed.

Lemma or_empty_dict_truthy (v : value) :
  truthy v = true -> py_or v (PyDict []) = v.
Proof.
  intros T. unfold py_or. now rewrite T.
Qed.

(** X13.  The text of the numbered line is the first truthy value among
    the fields [content], [answer], [text], in that order; a field that
    is absent, [None], empty, zero or [False] is passed over, and when
    none is truthy the line reads "(no content)". *)
Theorem content_fallback_chain (isprintable : Z -> bool) (index : Z)
    (item : pydict) :
  (truthy (dict_get item (lit "content")) = true ->
   nth_error (Server.section_lines isprintable index item) 0
   = Some (int_repr index ++ lit ". "
             ++ py_str isprintable (dict_get item (lit "content"))))
  /\ (truthy (dict_get item (lit "content")) = false ->
      truthy (dict_get item (lit "answer")) = true ->
      nth_error (Server.section_lines isprintable index item) 0
      = Some (int_repr index ++ lit ". "
                ++ py_str isprintable (dict_get item (lit "answer"))))
  /\ (truthy (dict_get item (lit "content")) = false ->
      truthy (dict_get item (lit "answer")) = false ->
      truthy (dict_get item (lit "text")) = true ->
      nth_error (Server.section_lines isprintable index item) 0
      = Some (int_repr index ++ lit ". "
                ++ py_str isprintable (dict_get item (lit "text"))))
  /\ (truthy (dict_get item (lit "content")) = false ->
      truthy (dict_get item (lit "answer")) = false ->
      truthy (dict_get item (lit "text")) = false ->
      nth_error (Server.section_lines isprintable index item) 0
      = Some (int_repr index ++ lit ". (no content)")).
Proof.
  unfold Server.section_lines. cbv zeta.
  set (c := dict_get item (lit "content")).
  set (a := dict_get item (lit "answer")).
  set (t := dict_get item (lit "text")).
  assert (H : forall (first : pystr) (rest1 rest2 : list pystr) (b1 b2 : bool),
             nth_error
               (if b2
                then (if b1 then [first] ++ rest1 else [first]) ++ rest2
                else (if b1 then [first] ++ rest1 else [first])) 0
             = Some first)
    by (intros first rest1 rest2 [|] [|]; reflexivity).
  repeat split; intros; rewrite H; unfold py_or;
    repeat match goal with
           | E : truthy _ = _ |- _ => rewrite E
           end; reflexivity.
Qed.

Lemma content_fallback_chain_witness :
  truthy (dict_get item_empty_content (lit "content")) = false
  /\ truthy (dict_get item_empty_content (lit "answer")) = true
  /\ nth_error (Server.section_lines ascii_printable 1 item_empty_content) 0
     = Some (lit "1. A").
Proof.
  split; [reflexivity|]. split; [reflexivity|].
  destruct (content_fallback_chain ascii_printable 1 item_empty_content)
    as (_ & H & _).
  exact (H eq_refl eq_refl).
Defined.

(** X14.  The block of a mapping has a metadata line exactly when its
    [metadata] field is truthy (present, and not [None], empty, zero or
    [False]); the line is then the last of the block and holds the
    value as compact JSON, whether or not the value is a mapping. *)
Theorem metadata_line_iff_truthy (isprintable : Z -> bool) (index : Z)
    (item : pydict) :
  has_metadata_line (Server.section_lines isprintable index item)
  = truthy (dict_get item (lit "metadata"))
  /\ (truthy (dict_get item (lit "metadata")) = true ->
      last (Server.section_lines isprintable index item) []
      = lit "   metadata: "
          ++ json_dumps None (dict_get item (lit "metadata"))).
Proof.
  destruct (section_lines_shape isprintable index item) as (text & ->).
  rewrite truthy_or_empty_dict. split.
  - unfold has_metadata_line. cbn [existsb].
    change (lit "   metadata: ") with (32 :: lit "  metadata: ") at 1.
    rewrite numbered_line_not_indented. cbn [orb].
    destruct (is_not_none (dict_get item (lit "score")));
      destruct (truthy (dict_get item (lit "metadata")));
      cbn [app existsb]; rewrite ?startswith_app; reflexivity.
  - intros T. rewrite T, (or_empty_dict_truthy _ T).
    destruct (is_not_none (dict_get item (lit "score"))); reflexivity.
Qed.

Lemma metadata_line_iff_truthy_witness :
  truthy (dict_get item_string_metadata (lit "metadata")) = true
  /\ last (Server.section_lines ascii_printable 1 item_string_metadata) []
     = lit "   metadata: " ++ quoted (lit "m").
Proof.
  split; [reflexivity|].
  destruct (metadata_line_iff_truthy ascii_printable 1 item_string_metadata)
    as [_ H].
  exact (H eq_refl).
Defined.

(** ** The shape of the normalised text *)

(** Either no key holds a sequence, or there is a first one that does. *)
Lemma first_sequence_or_none (payload : pydict) (keys : list pystr) :
  Forall (not_a_list payload) keys
  \/ exists earlier key later items,
       keys = earlier ++ key :: later
       /\ Forall (not_a_list payload) earlier
       /\ dict_get payload key = PyList items.
Proof.
  induction keys as [|k keys IH].
  - left. constructor.
  - destruct (dict_get payload k) as [| | | | |items|] eqn:E;
      try (destruct IH as [IH|(earlier & key & later & items & -> & He & Hk)];
           [ left; constructor; [unfold not_a_list; now rewrite E | exact IH]
           | right; exists (k :: earlier), key, later, items;
             split; [reflexivity|]; split; [|exact Hk];
             constructor; [unfold not_a_list; now rewrite E | exact He] ]).
    right. exists [], k, keys, items. repeat split; [constructor | exact E].
Qed.

Lemma format_payload_shape (isprintable : Z -> bool) (payload : pydict) :
  Server._format_payload isprintable payload = NO_MATCH
  \/ startswith (Server._format_payload isprintable payload) (lit "1. ") = true
  \/ (Server._format_payload isprintable payload
      = json_dumps (Some 2%nat) (PyDict payload)
      /\ startswith (Server._format_payload isprintable payload) (lit "{") = true).
Proof.
  destruct (first_sequence_or_none payload PRIORITY)
    as [H|(earlier & key & later & items & HP & He & Hk)].
  - right. right.
    assert (E : Server._format_payload isprintable payload
                = json_dumps (Some 2%nat) (PyDict payload)).
    { unfold Server._format_payload.
      change [lit "items"; lit "data"; lit "documents"; lit "results"]
        with PRIORITY.
      rewrite <- (app_nil_r PRIORITY).
      now rewrite (format_payload_loop_skip isprintable payload PRIORITY [] H). }
    split; [exact E|]. rewrite E. now destruct payload.
  - rewrite (format_payload_selected isprintable payload earlier key later
               items HP He Hk).
    destruct items as [|item items]; [now left|].
    right. left. cbn [render_selected].
    apply format_documents_startswith_1. discriminate.
Qed.

Lemma format_payload_not_blank (isprintable : Z -> bool) (payload : pydict) :
  strip (Server._format_payload isprintable payload) <> [].
Proof.
  assert (G : forall p s, p <> [] -> isspace (hd 0 p) = false ->
                          startswith s p = true -> strip s <> []).
  { intros [|c p] s N Hc S; [congruence|].
    destruct s as [|x s]; [discriminate|]. cbn [startswith] in S.
    apply andb_true_iff in S as [X _]. apply Z.eqb_eq in X. subst x.
    now apply strip_head_nonspace. }
  destruct (format_payload_shape isprintable payload) as [E|[S|[_ S]]].
  - rewrite E. vm_compute. discriminate.
  - apply (G (lit "1. ")); [discriminate | reflexivity | exact S].
  - apply (G (lit "{")); [discriminate | reflexivity | exact S].
Qed.

(** X15.  The normalised text of a payload is one of three things: the
    "no matching documents" message, a rendering that opens with
    ["1. "], or the indented JSON of the whole payload, which opens with
    a brace.  It is never empty and never all whitespace. *)
Theorem normalised_text_shape (isprintable : Z -> bool) (payload : pydict) :
  (Server._format_payload isprintable payload
   = lit "No matching documents were found."
   \/ startswith (Server._format_payload isprintable payload) (lit "1. ") = true
   \/ (Server._format_payload isprintable payload
       = json_dumps (Some 2%nat) (PyDict payload)
       /\ startswith (Server._format_payload isprintable payload) (lit "{")
          = true))
  /\ strip (Server._format_payload isprintable payload) <> []
  /\ blank (Server._format_payload isprintable payload) = false.
Proof.
  split; [apply format_payload_shape|].
  pose proof (format_payload_not_blank isprintable payload) as N.
  split; [exact N|].
  destruct (blank (Server._format_payload isprintable payload)) eqn:B;
    [|reflexivity].
  now apply strip_blank in B.
Qed.

(** X16.  When a call returns, the text it returns is the normalised
    text of a JSON object, and it is not blank. *)
Theorem returned_text_not_blank (isprintable : Z -> bool)
    (query data_id : pystr) (w : World) (text : pystr) :
  fst (Server._query_dataset isprintable query data_id w) = inr text ->
  (exists payload, text = Server._format_payload isprintable payload)
  /\ strip text <> [].
Proof.
  intros H.
  assert (E : exists payload, text = Server._format_payload isprintable payload).
  { destruct (blank query) eqn:B.
    - unfold Server._query_dataset in H. rewrite query_guard, B in H.
      discriminate.
    - destruct (fst (Server._build_headers w)) as [e|hdrs] eqn:Hh.
      + rewrite (query_dataset_no_credential isprintable w query data_id e B Hh)
          in H. discriminate.
      + rewrite (query_dataset_after_validation isprintable w query data_id
                   hdrs B Hh) in H. cbn [fst] in H.
        destruct (upstream w (sent w) (request_for hdrs query data_id))
          as [e|response]; [discriminate|].
        destruct (is_success response); [|discriminate].
        destruct (decoded response) as [[| | | | | |d]|]; try discriminate.
        injection H as <-. now exists d. }
  split; [exact E|]. destruct E as (payload & ->).
  apply format_payload_not_blank.
Qed.

Lemma returned_text_not_blank_witness :
  fst (Server._query_dataset ascii_printable (lit "5S") (lit "d")
         (world_answering [] (inr response_200_empty)))
  = inr NO_MATCH
  /\ strip NO_MATCH <> [].
Proof.
  split; [reflexivity|].
  destruct (returned_text_not_blank ascii_printable (lit "5S") (lit "d")
              (world_answering [] (inr response_200_empty)) NO_MATCH eq_refl)
    as [_ N].
  exact N.
Defined.

(** ** Renderings of longer and shorter lists *)

Lemma join_app (sep : pystr) (a b : list pystr) :
  a <> [] -> b <> [] ->
  join sep (a ++ b) = join sep a ++ sep ++ join sep b.
Proof.
  intros Na Nb. induction a as [|x a IH]; [congruence|].
  destruct a as [|y a].
  - cbn [app]. destruct b as [|z b]; [congruence | reflexivity].
  - change ((x :: y :: a) ++ b) with (x :: (y :: a) ++ b).
    change (join sep (x :: (y :: a) ++ b))
      with (x ++ sep ++ join sep ((y :: a) ++ b)).
    rewrite IH by discriminate.
    change (join sep (x :: y :: a)) with (x ++ sep ++ join sep (y :: a)).
    now rewrite <- !app_assoc.
Qed.

Lemma blocks_from_app (isprintable : Z -> bool) (xs ys : list value) :
  forall index,
    blocks_from isprintable index (xs ++ ys)
    = blocks_from isprintable index xs
      ++ blocks_from isprintable (index + Z.of_nat (List.length xs)) ys.
Proof.
  induction xs as [|x xs IH]; intros index.
  - cbn [app blocks_from List.length Z.of_nat]. now rewrite Z.add_0_r.
  - cbn [app blocks_from]. rewrite IH. cbn [app]. do 3 f_equal.
    cbn [List.length]. lia.
Qed.

(** X17.  [_format_documents] gives the empty string for the empty list
    and for no other list. *)
Theorem rendering_empty_iff_no_items (isprintable : Z -> bool)
    (items : list value) :
  Server._format_documents isprintable items = [] <-> items = [].
Proof.
  split.
  - intros E. destruct items as [|item items]; [reflexivity|].
    assert (N : item :: items <> []) by discriminate.
    pose proof (format_documents_startswith_1 isprintable _ N) as S.
    rewrite E in S. discriminate.
  - intros ->. reflexivity.
Qed.

(** X18.  Items added at the end of a list leave the rendering of the
    items before them as it was: the rendering of [xs ++ ys] is the
    rendering of [xs], a blank line, and the blocks of [ys] numbered
    from [len(xs) + 1] on. *)
Theorem rendering_of_appended_items (isprintable : Z -> bool)
    (xs ys : list value) :
  xs <> [] -> ys <> [] ->
  Server._format_documents isprintable (xs ++ ys)
  = Server._format_documents isprintable xs
    ++ [LF; LF]
    ++ join [LF; LF]
         (blocks_from isprintable (1 + Z.of_nat (List.length xs)) ys).
Proof.
  intros Nx Ny. rewrite !format_documents_blocks, blocks_from_app.
  apply join_app.
  - destruct xs; [congruence | discriminate].
  - destruct ys; [congruence | discriminate].
Qed.

Lemma rendering_of_appended_items_witness :
  [PyStr (lit "a")] <> [] /\ [PyStr (lit "b"); PyNone] <> []
  /\ Server._format_documents ascii_printable
       ([PyStr (lit "a")] ++ [PyStr (lit "b"); PyNone])
     = lit "1. a" ++ [LF; LF] ++ join [LF; LF] [lit "2. b"; lit "3. None"].
Proof.
  split; [discriminate|]. split; [discriminate|].
  rewrite (rendering_of_appended_items ascii_printable [PyStr (lit "a")]
             [PyStr (lit "b"); PyNone]); [reflexivity | discriminate..].
Defined.

Lemma rendering_empty_iff_no_items_witness :
  Server._format_documents ascii_printable [] = []
  /\ Server._format_documents ascii_printable [PyNone] <> [].
Proof.
  split.
  - exact (proj2 (rendering_empty_iff_no_items ascii_printable []) eq_refl).
  - intros E.
    pose proof (proj1 (rendering_empty_iff_no_items ascii_printable [PyNone]) E)
      as N.
    discriminate N.
Defined.
